(** * sdc-login-ons: the login service of [app.py], embedded and verified

    The service authenticates a respondent by email and password, hands out a
    signed token that carries the respondent's public fields, and serves and
    updates the profile of the respondent a token names.

    Layout of the development:
    - [Outcome]: what a Python call does, a value returned or an exception raised;
    - [JValue]: the values [request.get_json()] hands to a view function, with the
      Python operators the views apply to them ([bool(x)], [k in x], [x[k]]);
    - [Request] and the error responses [unauthorized] and [known_error],
      which decode the bytes of the body before they answer;
    - [User], the table of users and its queries;
    - the views [login], [profile], [profile_update] and [validate_token];
    - [TokenCodec]: the token codec, which the service imports from its [jwt]
      module, and [PasswordHasher]: the hasher behind [User.set_password] and
      [User.verify_password];
    - [Demo]: a concrete deployment (the accounts of [create_users]) on which
      the statements are exercised;
    - the proofs: facts on the codec, the hasher and the views, then the
      statements of the specification and further properties of the code. *)

From Stdlib Require Import Floats Ascii String.
From stdpp Require Import gmap strings list fin_maps.

Local Open Scope string_scope.

(** ** Outcomes of Python calls *)

(** The exceptions the service can meet. [UnicodeDecodeError] is what
    [bytes.decode('UTF8')] raises; [LibraryError] stands for any exception
    of a library that the service neither raises nor handles itself, and
    carries the name of its class. *)
Inductive Exn :=
  | JWSError
  | TypeError
  | KeyError
  | BadRequest
  | UnicodeDecodeError
  | LibraryError (cls : string).

Inductive Outcome (A : Type) :=
  | Return (a : A)
  | Raise (e : Exn).
Arguments Return {A} a.
Arguments Raise {A} e.

#[global] Instance Outcome_ret : MRet Outcome := @Return.
#[global] Instance Outcome_bind : MBind Outcome :=
  fun A B (f : A -> Outcome B) (m : Outcome A) =>
  match m with
  | Return a => f a
  | Raise e => Raise e
  end.

#[global] Instance Outcome_fmap : FMap Outcome :=
  fun A B (f : A -> B) (m : Outcome A) =>
  match m with
  | Return a => Return (f a)
  | Raise e => Raise e
  end.

(** [a and b] on booleans: [b] is evaluated only when [a] is true. *)
Definition py_and (a b : Outcome bool) : Outcome bool :=
  x ← a; if (x : bool) then b else Return false.

(** ** JSON values as Python sees them *)

#[local] Set Warnings "-register-all".
Inductive JValue :=
  | JNull                                (* None *)
  | JBool (b : bool)
  | JInt (n : Z)
  | JFloat (f : float)
  | JStr (s : string)
  | JArr (l : list JValue)
  | JObj (m : gmap string JValue).

(** [needle in hay] for two [str]: [needle] occurs in [hay]. *)
Fixpoint occurs_in (needle hay : string) : bool :=
  String.prefix needle hay ||
  match hay with
  | EmptyString => false
  | String _ rest => occurs_in needle rest
  end.

Definition is_str (k : string) (v : JValue) : bool :=
  match v with
  | JStr s => bool_decide (s = k)
  | _ => false
  end.

(** [bool(v)]. *)
Definition truthy (v : JValue) : bool :=
  match v with
  | JNull => false
  | JBool b => b
  | JInt n => negb (n =? 0)%Z
  | JFloat f => negb (PrimFloat.eqb f 0%float)
  | JStr s => negb (bool_decide (s = ""))
  | JArr l => negb (bool_decide (length l = 0%nat))
  | JObj m => negb (bool_decide (size m = 0%nat))
  end.

(** [k in v] for a [str] key [k]: key membership in a dict, element membership
    in a list, substring test on a str, [TypeError] on anything else. *)
Definition py_in (k : string) (v : JValue) : Outcome bool :=
  match v with
  | JObj m => Return (bool_decide (is_Some (m !! k)))
  | JArr l => Return (existsb (is_str k) l)
  | JStr s => Return (occurs_in k s)
  | JNull | JBool _ | JInt _ | JFloat _ => Raise TypeError
  end.

(** [v[k]] for a [str] key [k]: only a dict can be indexed by a str. *)
Definition py_getitem (v : JValue) (k : string) : Outcome JValue :=
  match v with
  | JObj m =>
      match m !! k with
      | Some x => Return x
      | None => Raise KeyError
      end
  | _ => Raise TypeError
  end.

(** A dict whose values are [str] or [None]: what [User.json] builds, what a
    token carries, and what [jsonify] is given. *)
Abbreviation PyDict := (gmap string (option string)).

(** [str(v)] for such a value. *)
Definition py_str (v : option string) : string :=
  match v with
  | Some s => s
  | None => "None"
  end.

(** ** Bytes and text *)

(** A [bytes] value is a [string] with one character per byte, and a [str]
    is kept as its UTF-8 bytes. *)
Definition byte_in (lo hi : N) (a : ascii) : bool :=
  (lo <=? N_of_ascii a)%N && (N_of_ascii a <=? hi)%N.

(** Well-formed UTF-8, by the ranges of its lead and continuation bytes:
    no overlong form, no surrogate, nothing above U+10FFFF, no sequence cut
    short. It is what the strict decoder of [bytes.decode] accepts. *)
Fixpoint utf8_valid (b : string) : bool :=
  match b with
  | EmptyString => true
  | String a r =>
      if byte_in 0x00 0x7F a then utf8_valid r
      else if byte_in 0xC2 0xDF a then
        match r with
        | String x r' => byte_in 0x80 0xBF x && utf8_valid r'
        | _ => false
        end
      else if byte_in 0xE0 0xEF a then
        match r with
        | String x (String y r') =>
            byte_in (if byte_in 0xE0 0xE0 a then 0xA0 else 0x80)
                    (if byte_in 0xED 0xED a then 0x9F else 0xBF) x
            && byte_in 0x80 0xBF y && utf8_valid r'
        | _ => false
        end
      else if byte_in 0xF0 0xF4 a then
        match r with
        | String x (String y (String z r')) =>
            byte_in (if byte_in 0xF0 0xF0 a then 0x90 else 0x80)
                    (if byte_in 0xF4 0xF4 a then 0x8F else 0xBF) x
            && byte_in 0x80 0xBF y && byte_in 0x80 0xBF z && utf8_valid r'
        | _ => false
        end
      else false
  end.

(** [b.decode('UTF8')]: the text of [b], or [UnicodeDecodeError]. *)
Definition decode_utf8 (b : string) : Outcome string :=
  if utf8_valid b then Return b else Raise UnicodeDecodeError.

(** ** The request and the responses *)

(** What a view function reads of the request: [request.url], the [token]
    header ([request.headers.get("token")], [None] when there is none),
    [request.data], the bytes of the body, and what [request.get_json()]
    does: the parsed body, [None] ([JNull]) when the body is not announced as
    JSON, [BadRequest] when it does not parse. The views never read
    [request.data] themselves; [unauthorized] and [known_error] decode it
    for the line they log. *)
Record Request := {
  url : string;
  header_token : option string;
  data : string;
  get_json : Outcome JValue;
}.

Record Response := {
  status_code : Z;
  body : PyDict;
}.

(** [jsonify(d)]: status 200. *)
Definition jsonify (d : PyDict) : Response :=
  {| status_code := 200; body := d |}.

(** ["{}: {}".format(error, request.url)] *)
Definition error_message (error : string) (req : Request) : PyDict :=
  {[ "message" := Some (error ++ ": " ++ url req) ]}.

(** [unauthorized] and [known_error]. The argument of the call that logs,
    [request.data.decode('UTF8')], is evaluated first and raises on a body
    that is not UTF-8; the line written to the log is no part of the answer
    and is not kept. *)
Definition unauthorized (req : Request) (error : string) : Outcome Response :=
  _ ← decode_utf8 (data req);
  Return {| status_code := 401; body := error_message error req |}.

Definition known_error (req : Request) (error : string) : Outcome Response :=
  _ ← decode_utf8 (data req);
  Return {| status_code := 400; body := error_message error req |}.

(** ** The user model *)

Record User := {
  id : Z;
  user_id : option string;
  name : option string;
  email : option string;
  password_hash : option string;
}.

(** The [user] table, rows in the order a query without ORDER BY lists them. *)
Abbreviation Store := (list User).

Definition with_name (v : option string) (u : User) : User :=
  {| id := id u; user_id := user_id u; name := v; email := email u;
     password_hash := password_hash u |}.

Definition with_password_hash (h : option string) (u : User) : User :=
  {| id := id u; user_id := user_id u; name := name u; email := email u;
     password_hash := h |}.

(** [User.json] *)
Definition json (u : User) : PyDict :=
  {[ "user_id" := user_id u; "name" := name u; "email" := email u ]}.

(** [User.query.filter_by(email=v).first()] and
    [User.query.filter_by(user_id=v).first()], for a value [v] the column
    type holds: [filter_by(c=None)] selects the rows where [c IS NULL]. *)
Definition first_by_email (db : Store) (v : option string) : option User :=
  head (filter (fun u => email u = v) db).

Definition first_by_user_id (db : Store) (v : option string) : option User :=
  head (filter (fun u => user_id u = v) db).

(** [user.name = v; db.session.commit()]: the UPDATE that the unit of work
    issues is keyed by the primary key of [user]. *)
Definition commit_name (db : Store) (user : User) (v : option string) : Store :=
  (fun r => if bool_decide (id r = id user) then with_name v r else r) <$> db.


(** The table with other password hashes, [f] giving the hash of the row of
    each primary key. *)
Definition rewrite_hashes (f : Z -> option string) (db : Store) : Store :=
  (fun r => with_password_hash (f (id r)) r) <$> db.

(** What [validate_token] hands back: [None], the empty str, or the claims. *)
Inductive TokenData :=
  | DNone
  | DEmptyStr
  | DClaims (c : PyDict).

(** [bool(data)]: a dict is true when it has a key. *)
Definition data_truthy (d : TokenData) : bool :=
  match d with
  | DNone | DEmptyStr => false
  | DClaims c => negb (bool_decide (size c = 0%nat))
  end.

(** ["user_id" in data], reached only behind [data and ...]. *)
Definition data_has (k : string) (d : TokenData) : bool :=
  match d with
  | DClaims c => bool_decide (is_Some (c !! k))
  | DNone | DEmptyStr => false
  end.

(** [data[k]] on the claims. *)
Definition data_getitem (d : TokenData) (k : string) : Outcome (option string) :=
  match d with
  | DClaims c =>
      match c !! k with
      | Some v => Return v
      | None => Raise KeyError
      end
  | DNone | DEmptyStr => Raise TypeError
  end.

(** ** The service *)

Section Service.

(** passlib's [CryptContext]: [pwd_context.encrypt(password)] with the salt
    it draws made an argument, and [pwd_context.verify(password, hash)],
    which raises on a password or a hash it cannot handle. *)
Variable pwd_encrypt : string -> string -> string.
Variable pwd_verify : JValue -> string -> Outcome bool.

(** [encode] and [decode] of the service's [jwt] module. *)
Variable encode : PyDict -> string.
Variable decode : string -> Outcome PyDict.

(** How the storage engine binds a Python value to a [String] column
    (a str as itself and [None] as NULL; the rest differs by engine). *)
Variable bind_column : JValue -> Outcome (option string).

(** [User.set_password], [salt] being the salt passlib draws. *)
Definition set_password (salt : string) (u : User) (password : option string) : User :=
  let u := with_password_hash None u in
  match password with
  | Some p => with_password_hash (Some (pwd_encrypt salt p)) u
  | None => u
  end.

(** [User.verify_password] *)
Definition verify_password (u : User) (password : JValue) : Outcome bool :=
  match password_hash u with
  | None => Return false
  | Some h => pwd_verify password h
  end.

(** [validate_token]: falls off the end ([None]) for a token that is absent
    or empty, and answers [""] when [decode] raises [JWSError]. *)
Definition validate_token (token : option string) : Outcome TokenData :=
  match token with
  | None | Some "" => Return DNone
  | Some t =>
      match decode t with
      | Return c => Return (DClaims c)
      | Raise JWSError => Return DEmptyStr
      | Raise e => Raise e
      end
  end.

(** [login] *)
Definition login (db : Store) (req : Request) : Outcome Response :=
  credentials ← get_json req;
  ok ← py_and (Return (truthy credentials))
        (py_and (py_in "email" credentials) (py_in "password" credentials));
  if (ok : bool) then
    e ← py_getitem credentials "email";
    e ← bind_column e;
    match first_by_email db e with
    | Some user =>
        p ← py_getitem credentials "password";
        v ← verify_password user p;
        if (v : bool)
        then Return (jsonify {[ "token" := Some (encode (json user)) ]})
        else unauthorized req "Access denied"
    | None => unauthorized req "Access denied"
    end
  else
    unauthorized req
      "Please provide a Json message with 'email' and 'password' fields.".

(** [profile] *)
Definition profile (db : Store) (req : Request) : Outcome Response :=
  data ← validate_token (header_token req);
  if data_truthy data && data_has "user_id" data then
    uid ← data_getitem data "user_id";
    match first_by_user_id db uid with
    | Some user => Return (jsonify (json user))
    | None =>
        known_error req ("Respondent ID " ++ py_str uid ++ " not found.")
    end
  else
    unauthorized req "Please provide a token header that includes a user_id.".

(** [profile_update]: the store after the request, and the response. *)
Definition profile_update (db : Store) (req : Request) : Outcome (Store * Response) :=
  data ← validate_token (header_token req);
  json_body ← get_json req;
  if data_truthy data && data_has "user_id" data then
    uid ← data_getitem data "user_id";
    match first_by_user_id db uid with
    | Some user =>
        has_name ← py_in "name" json_body;
        if (has_name : bool) then
          v ← py_getitem json_body "name";
          v ← bind_column v;
          let db' := commit_name db user v in
          Return (db', jsonify (json (with_name v user)))
        else
          Return (db, jsonify (json user))
    | None =>
        pair db <$>
          known_error req ("Respondent ID " ++ py_str uid ++ " not found.")
    end
  else
    pair db <$>
      unauthorized req "Please provide a token header that includes a user_id.".

End Service.

(** The two ways a profile request fails: its token is absent, empty,
    rejected by [decode] with [JWSError] or without a user_id; or its token
    is valid and names a user_id that no row holds. *)
Definition missing_or_invalid_token (decode : string -> Outcome PyDict)
    (req : Request) : Prop :=
  header_token req = None \/ header_token req = Some "" \/
  (exists t, header_token req = Some t /\ decode t = Raise JWSError) \/
  (exists t c, header_token req = Some t /\ decode t = Return c /\
               c !! "user_id" = None).

Definition subject_not_found (decode : string -> Outcome PyDict)
    (db : Store) (req : Request) (uid : option string) : Prop :=
  exists t c, header_token req = Some t /\ t ≠ "" /\ decode t = Return c /\
              c !! "user_id" = Some uid /\ first_by_user_id db uid = None.

(** The response of a view that also hands back the store. *)
Definition response_of (o : Outcome (Store * Response)) : Outcome Response :=
  snd <$> o.

(** ** The accounts the service starts with *)

Section Fixture.

Variable pwd_encrypt : string -> string -> string.

(** The primary key the engine gives the next row. *)
Definition next_id (db : Store) : Z :=
  (1 + foldr Z.max 0 (id <$> db))%Z.

(** The accounts of [create_users]: user_id, email, name. *)
Definition users : list (string * string * string) :=
  [ ("101", "nick.gravgaard@example.com", "Nick Gravgaard");
    ("102", "shane.edwards@example.com", "Shane Edwards");
    ("103", "david.carboni@example.com", "David Carboni");
    ("104", "nic.price@example.com", "Nic Price");
    ("105", "rich.ingram@example.com", "Rich Ingram");
    ("106", "tom.underwood@example.com", "Tom Underwood");
    ("107", "rachel.williams@example.com", "Rachel Williams");
    ("108", "nige.sedgwich@example.com", "Nige Sedgwick");
    ("109", "simon.houghton@example.com", "Simon Houghton");
    ("110", "rob.kent@example.com", "Rob Kent") ].

(** One turn of the loop of [create_users]; [salt] is the salt drawn for
    this account. *)
Definition create_user (db : Store) (salt : string)
    (user : string * string * string) : Store :=
  let '(uid, mail, nm) := user in
  match first_by_user_id db (Some uid) with
  | None =>
      let account :=
        {| id := next_id db; user_id := Some uid; name := Some nm;
           email := Some mail; password_hash := None |} in
      db ++ [set_password pwd_encrypt salt account (Some "password")]
  | Some _ => db
  end.

(** [create_users], the [n]-th account salted with [salts n]. *)
Definition create_users (salts : nat -> string) (db : Store) : Store :=
  foldl (fun db '(n, user) => create_user db (salts n) user) db
        (imap pair users).

(** [recreate_database] leaves an empty table. *)
Definition recreate_database : Store := [].

End Fixture.

(** ** The token codec *)

(** Modelled from the spec: the service's [jwt] module, from which [app.py]
    imports [encode] and [decode], is not among the sources. This module is
    that codec as the specification describes it: a compact string that
    embeds the claims and a tag computed with the process-wide secret over
    the whole of the claims text, checked before the claims are handed back.
    The MAC itself stays a parameter. *)
Module TokenCodec.

Local Open Scope char_scope.

(** *** Text framing: base-16 words and separators *)

Definition hex_digit (n : N) : ascii :=
  match n with
  | 0 => "0" | 1 => "1" | 2 => "2" | 3 => "3" | 4 => "4" | 5 => "5"
  | 6 => "6" | 7 => "7" | 8 => "8" | 9 => "9" | 10 => "a" | 11 => "b"
  | 12 => "c" | 13 => "d" | 14 => "e" | _ => "f"
  end%N.

Definition hex_value (c : ascii) : option N :=
  let n := N_of_ascii c in
  if (48 <=? n)%N && (n <=? 57)%N then Some (n - 48)%N
  else if (97 <=? n)%N && (n <=? 102)%N then Some (n - 87)%N
  else None.

Fixpoint hex (s : string) : string :=
  match s with
  | EmptyString => EmptyString
  | String a r =>
      String (hex_digit (N_of_ascii a / 16))
        (String (hex_digit (N_of_ascii a mod 16)) (hex r))
  end.

Fixpoint unhex (s : string) : option string :=
  match s with
  | EmptyString => Some EmptyString
  | String _ EmptyString => None
  | String a (String b r) =>
      hi ← hex_value a;
      lo ← hex_value b;
      r' ← unhex r;
      Some (String (ascii_of_N (16 * hi + lo)) r')
  end.

Fixpoint has_char (c : ascii) (s : string) : bool :=
  match s with
  | EmptyString => false
  | String a r => bool_decide (a = c) || has_char c r
  end.

(** [cut c s]: the text before the first [c] in [s] and the text after it. *)
Fixpoint cut (c : ascii) (s : string) : option (string * string) :=
  match s with
  | EmptyString => None
  | String a r =>
      if bool_decide (a = c) then Some (EmptyString, r)
      else '(x, y) ← cut c r; Some (String a x, y)
  end.

(** The words of a text in which every word is closed by a comma. *)
Fixpoint words (s : string) : option (list string) :=
  match s with
  | EmptyString => Some []
  | String a r =>
      if bool_decide (a = ",") then (cons EmptyString) <$> words r
      else
        match words r with
        | Some (w :: ws) => Some (String a w :: ws)
        | _ => None
        end
  end.

Definition unwords (ws : list string) : string :=
  foldr (fun w r => (w ++ String "," r)%string) EmptyString ws.

(** *** The claims as text *)

Definition write_value (v : option string) : string :=
  match v with
  | None => String "-" EmptyString
  | Some s => String "+" (hex s)
  end.

Definition read_value (w : string) : option (option string) :=
  match w with
  | String "-" EmptyString => Some None
  | String "+" h => Some <$> unhex h
  | _ => None
  end.

Fixpoint write_items (l : list (string * option string)) : list string :=
  match l with
  | [] => []
  | (k, v) :: r => hex k :: write_value v :: write_items r
  end.

Fixpoint read_items (ws : list string) : option (list (string * option string)) :=
  match ws with
  | [] => Some []
  | [_] => None
  | k :: v :: r =>
      k' ← unhex k;
      v' ← read_value v;
      l ← read_items r;
      Some ((k', v') :: l)
  end.

(** Modelled from the spec: the claims embedded in the token, as text. Every
    key and value is written in base 16 and closed by a comma, a null value
    as a dash, so that the text holds no dot. *)
Definition serialize (c : PyDict) : string :=
  unwords (write_items (map_to_list c)).

(** Modelled from the spec: the claims read back from the text of a token;
    [None] when the text is malformed. *)
Definition parse (p : string) : option PyDict :=
  ws ← words p;
  l ← read_items ws;
  Some (list_to_map l).

(** *** Signing and checking *)

(** Modelled from the spec: the algorithm a token of this service declares
    and [decode] expects. *)
Definition ALGORITHM : string := "HS256"%string.

Section Codec.

(** The message authentication code: key, message, tag. *)
Variable mac : string -> string -> string.

(** The name of the environment variable that holds the signing secret. *)
Variable SECRET_VARIABLE : string.


(** The process-wide key, as [startup] left it. *)
Variable secret : string.

(** Modelled from the spec: what the tag is computed over, the declared
    algorithm and the whole of the claims text. *)
Definition signing_input (algorithm payload : string) : string :=
  (algorithm ++ String "." payload)%string.

(** Modelled from the spec: the tag of a token, in base 16. *)
Definition signature (algorithm payload : string) : string :=
  hex (mac secret (signing_input algorithm payload)).

(** Modelled from the spec: [encode] of the [jwt] module. The token is the
    declared algorithm, the claims text and the tag, separated by dots. *)
Definition encode (claims : PyDict) : string :=
  let payload := serialize claims in
  (signing_input ALGORITHM payload
     ++ String "." (signature ALGORITHM payload))%string.

(** Modelled from the spec: [decode] of the [jwt] module, [None] being the
    invalid result. The tag is checked before the claims are read; a
    token that is empty or not of three parts, that declares another
    algorithm, or whose tag does not match, is invalid. *)
Definition decode (token : string) : option PyDict :=
  '(algorithm, rest) ← cut "." token;
  '(payload, tag) ← cut "." rest;
  if bool_decide (algorithm = ALGORITHM) then
    if bool_decide (tag = signature algorithm payload) then parse payload
    else None
  else None.

(** Modelled from the spec: [decode] as [validate_token] calls it, where an
    invalid token is the exception [JWSError] that it handles. *)
Definition decode_or_raise (token : string) : Outcome PyDict :=
  match decode token with
  | Some c => Return c
  | None => Raise JWSError
  end.

End Codec.

End TokenCodec.

(** ** The password hasher *)

(** Modelled from the spec: passlib's [CryptContext], on which
    [User.set_password] and [User.verify_password] call [encrypt] and
    [verify], is not among the sources. This module is the hasher as the
    specification describes it: salted, and self-describing, the hash
    string embedding what it takes to verify without the salt being kept
    elsewhere. The key derivation itself stays a parameter. *)
Module PasswordHasher.

(** Modelled from the spec: the scheme a hash string declares, named after
    the one scheme of the [CryptContext] of [User]. *)
Definition SCHEME : string := "$pbkdf2-sha256$".

(** [strip p s]: what follows [p] in [s], when [s] starts with [p]. *)
Fixpoint strip (p s : string) : option string :=
  match p, s with
  | EmptyString, _ => Some s
  | String a p', String b s' =>
      if bool_decide (a = b) then strip p' s' else None
  | String _ _, EmptyString => None
  end.

Section Hasher.

(** The key derivation: salt, password, digest. *)
Variable kdf : string -> string -> string.

(** Modelled from the spec: [encrypt] of the context, with the salt it
    draws made an argument. The hash string is the scheme, the salt and
    the digest, the last two in base 16 and separated by a dollar sign. *)
Definition encrypt (salt password : string) : string :=
  SCHEME ++ TokenCodec.hex salt
         ++ String "$" (TokenCodec.hex (kdf salt password)).

(** The salt and the digest a hash string embeds. *)
Definition read_hash (h : string) : option (string * string) :=
  rest ← strip SCHEME h;
  '(s, digest) ← TokenCodec.cut "$" rest;
  salt ← TokenCodec.unhex s;
  Some (salt, digest).

(** Modelled from the spec: [verify] of the context. The digest of the
    password is derived anew with the salt the hash string embeds and
    compared with the digest it embeds. A password that is no str and a
    hash string of another shape are refused with an exception. *)
Definition verify (password : JValue) (h : string) : Outcome bool :=
  match password with
  | JStr p =>
      match read_hash h with
      | Some (salt, digest) =>
          Return (bool_decide (TokenCodec.hex (kdf salt p) = digest))
      | None => Raise (LibraryError "ValueError")
      end
  | _ => Raise TypeError
  end.

End Hasher.

End PasswordHasher.

(** ** A concrete deployment *)

Module Demo.

(** A stand-in for the key derivation: the salt before the password. It
    keeps no secret; it is here to run the views. *)
Definition kdf (salt password : string) : string := salt ++ password.

Definition pwd_encrypt : string -> string -> string :=
  PasswordHasher.encrypt kdf.
Definition pwd_verify : JValue -> string -> Outcome bool :=
  PasswordHasher.verify kdf.

(** A stand-in for the MAC: the key before the message. It keeps no secret
    either; no two messages share a tag under one key. *)
Definition mac (key message : string) : string := key ++ message.

Definition secret : string := "not-so-secret".

Definition encode : PyDict -> string := TokenCodec.encode mac secret.
Definition decode : string -> Outcome PyDict :=
  TokenCodec.decode_or_raise mac secret.

(** A stand-in for the storage engine: a str is bound as itself and [None]
    as NULL; an array or an object cannot be bound to a [String] column and
    is refused with the engine's error, and this stand-in refuses every
    other value too. *)
Definition bind_column (v : JValue) : Outcome (option string) :=
  match v with
  | JStr s => Return (Some s)
  | JNull => Return None
  | _ => Raise (LibraryError "InterfaceError")
  end.

(** The salt drawn for the [n]-th account. *)
Definition salts (n : nat) : string :=
  String (ascii_of_nat (48 + n)) EmptyString.

(** The table after [recreate_database] and [create_users]. *)
Definition db : Store :=
  create_users pwd_encrypt salts recreate_database.

Definition login := login pwd_verify encode bind_column.
Definition profile := profile decode.
Definition profile_update := profile_update decode bind_column.

(** The first account of [create_users], as it is stored. *)
Definition nick : User :=
  {| id := 1; user_id := Some "101"; name := Some "Nick Gravgaard";
     email := Some "nick.gravgaard@example.com";
     password_hash := Some (pwd_encrypt "0" "password") |}.

(** A request to [u] with the given token header and parsed body. The
    bytes of the body, which only the error responses read, are left
    empty. *)
Definition request (u : string) (token : option string) (j : JValue) : Request :=
  {| url := u; header_token := token; data := ""; get_json := Return j |}.

Definition credentials (mail password : string) : JValue :=
  JObj {[ "email" := JStr mail; "password" := JStr password ]}.

End Demo.

(** ** What the table keeps *)

(** The primary keys of the table are distinct, and so are its user_ids and
    its emails (nulls apart). The unique index on email and the primary key
    demand the first and the third of its rows; [create_users] looks after
    the second. *)
Definition keys_distinct (db : Store) : Prop :=
  NoDup (id <$> db) /\ NoDup (omap user_id db) /\ NoDup (omap email db).

(** The turn of [create_users] for [user] goes through on [db]: it inserts
    nothing, the user_id being there already, or the unique index on email
    admits the row it inserts. *)
Definition insert_admitted (db : Store) (user : string * string * string) : Prop :=
  first_by_email db (Some user.1.2) = None \/
  is_Some (first_by_user_id db (Some user.1.1)).

(** The token of [req] is valid and its user_id finds the row [u]: the case
    in which a profile view gets to work on a user. *)
Definition resolves (decode : string -> Outcome PyDict) (db : Store)
    (req : Request) (u : User) : Prop :=
  exists t c uid, header_token req = Some t /\ t ≠ "" /\ decode t = Return c /\
                  c !! "user_id" = Some uid /\ first_by_user_id db uid = Some u.

(** ** Texts and claims to count with *)





(** * Proofs *)

(** ** The token codec *)

Module TokenCodecProofs.

Import TokenCodec.
Local Open Scope char_scope.
Local Arguments String.append !_ _ / : simpl nomatch.

(** *** Base 16 *)

Lemma hex_byte (a : ascii) :
  hex_value (hex_digit (N_of_ascii a / 16)) = Some (N_of_ascii a / 16)%N /\
  hex_value (hex_digit (N_of_ascii a mod 16)) = Some (N_of_ascii a mod 16)%N /\
  ascii_of_N (16 * (N_of_ascii a / 16) + N_of_ascii a mod 16) = a.
Proof.
  destruct a as [[] [] [] [] [] [] [] []]; vm_compute; auto.
Qed.

Lemma unhex_hex (s : string) : unhex (hex s) = Some s.
Proof.
  induction s as [|a s IH]; [done|].
  destruct (hex_byte a) as (Hhi & Hlo & Ha).
  cbn [hex unhex]. rewrite Hhi, Hlo, IH. simpl. by rewrite Ha.
Qed.

Lemma hex_inj (s1 s2 : string) : hex s1 = hex s2 -> s1 = s2.
Proof.
  intros H. apply (f_equal unhex) in H. rewrite !unhex_hex in H. congruence.
Qed.

Lemma has_char_hex (c : ascii) (s : string) :
  hex_value c = None -> has_char c (hex s) = false.
Proof.
  intros Hc. induction s as [|a s IH]; [done|].
  destruct (hex_byte a) as (Hhi & Hlo & _).
  cbn [hex has_char]. rewrite IH.
  rewrite !bool_decide_eq_false_2; [done| |]; intros <-; congruence.
Qed.

Lemma has_char_app (c : ascii) (x y : string) :
  has_char c (x ++ y)%string = has_char c x || has_char c y.
Proof.
  induction x as [|a x IH]; [done|]. simpl. rewrite IH. by rewrite orb_assoc.
Qed.

(** *** Cutting at a separator *)

Lemma cut_app (c : ascii) (x y : string) :
  has_char c x = false -> cut c (x ++ String c y)%string = Some (x, y).
Proof.
  induction x as [|a x IH]; simpl.
  - intros _. by rewrite bool_decide_eq_true_2.
  - intros [Ha Hx]%orb_false_iff. rewrite Ha. by rewrite IH.
Qed.

Lemma cut_Some (c : ascii) (s x y : string) :
  cut c s = Some (x, y) -> s = (x ++ String c y)%string /\ has_char c x = false.
Proof.
  revert x. induction s as [|a s IH]; intros x; simpl; [done|].
  case_bool_decide as Ha.
  - intros [= <- <-]. by subst.
  - destruct (cut c s) as [[x' y']|] eqn:E; simpl; [|done].
    intros [= <- <-]. destruct (IH x' eq_refl) as [-> Hx].
    split; [done|]. simpl. rewrite Hx. by rewrite bool_decide_eq_false_2.
Qed.


(** *** Words *)

Lemma words_app (w rest : string) (ws : list string) :
  has_char "," w = false -> words rest = Some ws ->
  words (w ++ String "," rest)%string = Some (w :: ws).
Proof.
  intros Hw Hrest. induction w as [|a w IH]; simpl.
  - by rewrite Hrest.
  - cbn in Hw. apply orb_false_iff in Hw as [Ha Hw].
    rewrite Ha. by rewrite IH.
Qed.

Lemma words_unwords (ws : list string) :
  Forall (fun w => has_char "," w = false) ws -> words (unwords ws) = Some ws.
Proof.
  induction 1 as [|w ws Hw _ IH]; [done|]. simpl. by apply words_app.
Qed.

Lemma has_char_unwords (c : ascii) (ws : list string) :
  c ≠ "," -> Forall (fun w => has_char c w = false) ws ->
  has_char c (unwords ws) = false.
Proof.
  intros Hc. induction 1 as [|w ws Hw _ IH]; [done|].
  simpl. rewrite has_char_app. simpl. rewrite Hw, IH.
  by rewrite bool_decide_eq_false_2.
Qed.

(** *** The claims as text *)

Lemma read_write_value (v : option string) : read_value (write_value v) = Some v.
Proof. destruct v as [s|]; simpl; [|done]. by rewrite unhex_hex. Qed.

Lemma read_write_items (l : list (string * option string)) :
  read_items (write_items l) = Some l.
Proof.
  induction l as [|[k v] l IH]; [done|].
  cbn [write_items read_items].
  rewrite unhex_hex, read_write_value, IH. done.
Qed.

Lemma has_char_write_value (c : ascii) (v : option string) :
  hex_value c = None -> c ≠ "-" -> c ≠ "+" -> has_char c (write_value v) = false.
Proof.
  intros Hc H1 H2. destruct v as [s|]; simpl.
  - rewrite has_char_hex by done. by rewrite bool_decide_eq_false_2.
  - by rewrite bool_decide_eq_false_2.
Qed.

Lemma has_char_write_items (c : ascii) (l : list (string * option string)) :
  hex_value c = None -> c ≠ "-" -> c ≠ "+" ->
  Forall (fun w => has_char c w = false) (write_items l).
Proof.
  intros Hc H1 H2. induction l as [|[k v] l IH]; simpl; [constructor|].
  constructor; [by apply has_char_hex|].
  constructor; [by apply has_char_write_value|done].
Qed.

Lemma parse_serialize (c : PyDict) : parse (serialize c) = Some c.
Proof.
  unfold parse, serialize.
  rewrite words_unwords by (by apply has_char_write_items).
  simpl. rewrite read_write_items. simpl. by rewrite list_to_map_to_list.
Qed.

Lemma has_dot_serialize (c : PyDict) : has_char "." (serialize c) = false.
Proof.
  apply has_char_unwords; [done|]. by apply has_char_write_items.
Qed.


(** *** Tokens *)

Section Codec.

Variable mac : string -> string -> string.
Variable secret : string.

Lemma append_String_assoc (x : string) (c : ascii) (y z : string) :
  ((x ++ String c y) ++ z)%string = (x ++ String c (y ++ z))%string.
Proof. induction x as [|a x IH]; simpl; [done|]. by rewrite IH. Qed.

Lemma encode_shape (c : PyDict) :
  encode mac secret c =
  (ALGORITHM ++ String "."
     (serialize c ++ String "." (signature mac secret ALGORITHM (serialize c))))%string.
Proof. unfold encode, signing_input. apply append_String_assoc. Qed.


Lemma decode_token (p tag : string) :
  has_char "." p = false ->
  decode mac secret (ALGORITHM ++ String "." (p ++ String "." tag))%string =
  if bool_decide (tag = signature mac secret ALGORITHM p) then parse p else None.
Proof.
  intros Hp. unfold decode.
  rewrite (cut_app "." ALGORITHM) by reflexivity. simpl.
  by rewrite cut_app by done.
Qed.

Lemma decode_encode (c : PyDict) :
  decode mac secret (encode mac secret c) = Some c.
Proof.
  rewrite encode_shape, decode_token by apply has_dot_serialize.
  rewrite bool_decide_eq_true_2 by done. apply parse_serialize.
Qed.

Lemma decode_Some (t : string) (c : PyDict) :
  decode mac secret t = Some c ->
  exists p,
    t = (ALGORITHM ++ String "."
           (p ++ String "." (signature mac secret ALGORITHM p)))%string /\
    has_char "." p = false /\ parse p = Some c.
Proof.
  unfold decode.
  destruct (cut "." t) as [[a r]|] eqn:E1; simpl; [|done].
  destruct (cut "." r) as [[p tag]|] eqn:E2; simpl; [|done].
  case_bool_decide as Ha; [|done]. case_bool_decide as Ht; [|done].
  intros Hp. apply cut_Some in E1 as [-> _]. apply cut_Some in E2 as [-> Hd].
  subst a tag. by exists p.
Qed.



End Codec.



(** *** Tags of bounded length *)








End TokenCodecProofs.

(** ** The password hasher *)

Module PasswordHasherProofs.

Import TokenCodec PasswordHasher TokenCodecProofs.
Local Open Scope char_scope.
Local Arguments String.append !_ _ / : simpl nomatch.

Lemma strip_app (p s : string) : strip p (p ++ s)%string = Some s.
Proof.
  induction p as [|a p IH]; simpl; [by destruct s|].
  by rewrite bool_decide_eq_true_2.
Qed.

Section Hasher.

Variable kdf : string -> string -> string.

(** The hash string gives back the salt it was made with, and the digest. *)
Lemma read_hash_encrypt (salt p : string) :
  read_hash (encrypt kdf salt p) = Some (salt, hex (kdf salt p)).
Proof.
  unfold read_hash, encrypt. rewrite strip_app. simpl.
  rewrite cut_app by (by apply has_char_hex). simpl.
  by rewrite unhex_hex.
Qed.

Lemma verify_encrypt (salt p p' : string) :
  verify kdf (JStr p') (encrypt kdf salt p) =
  Return (bool_decide (kdf salt p' = kdf salt p)).
Proof.
  unfold verify. rewrite read_hash_encrypt. f_equal.
  apply bool_decide_ext. split; [apply hex_inj|congruence].
Qed.

Lemma encrypt_inj (salt salt' p p' : string) :
  encrypt kdf salt p = encrypt kdf salt' p' ->
  salt = salt' /\ kdf salt p = kdf salt' p'.
Proof.
  intros H. apply (f_equal read_hash) in H.
  rewrite !read_hash_encrypt in H. injection H as -> H.
  split; [done|]. by apply hex_inj.
Qed.

End Hasher.

End PasswordHasherProofs.

(** ** The service *)

(** *** The error responses *)

Lemma unauthorized_utf8 (req : Request) (error : string) :
  utf8_valid (data req) = true ->
  unauthorized req error =
  Return {| status_code := 401; body := error_message error req |}.
Proof. intros H. unfold unauthorized, decode_utf8. by rewrite H. Qed.

Lemma known_error_utf8 (req : Request) (error : string) :
  utf8_valid (data req) = true ->
  known_error req error =
  Return {| status_code := 400; body := error_message error req |}.
Proof. intros H. unfold known_error, decode_utf8. by rewrite H. Qed.

Lemma unauthorized_Return (req : Request) (error : string) (resp : Response) :
  unauthorized req error = Return resp ->
  utf8_valid (data req) = true /\
  resp = {| status_code := 401; body := error_message error req |}.
Proof.
  unfold unauthorized, decode_utf8.
  destruct (utf8_valid (data req)); [|done]. by intros [= <-].
Qed.

Lemma known_error_Return (req : Request) (error : string) (resp : Response) :
  known_error req error = Return resp ->
  utf8_valid (data req) = true /\
  resp = {| status_code := 400; body := error_message error req |}.
Proof.
  unfold known_error, decode_utf8.
  destruct (utf8_valid (data req)); [|done]. by intros [= <-].
Qed.

Lemma unauthorized_Raise (req : Request) (error : string) (x : Exn) :
  unauthorized req error = Raise x ->
  x = UnicodeDecodeError /\ utf8_valid (data req) = false.
Proof.
  unfold unauthorized, decode_utf8.
  destruct (utf8_valid (data req)); [done|]. by intros [= <-].
Qed.


(** The two error responses of one request go wrong together. *)
Lemma error_responses_same_request (r1 r2 : Request) (error : string) :
  url r1 = url r2 -> data r1 = data r2 ->
  unauthorized r1 error = unauthorized r2 error /\
  known_error r1 error = known_error r2 error.
Proof.
  intros Hu Hd. unfold unauthorized, known_error, error_message.
  by rewrite Hu, Hd.
Qed.

Lemma pair_fmap_Return {A B : Type} (a a' : A) (o : Outcome B) (b : B) :
  pair a <$> o = Return (a', b) -> a' = a /\ o = Return b.
Proof. destruct o; simpl; [|done]. by intros [= <- <-]. Qed.


Lemma unauthorized_cases (req : Request) (error : string) :
  unauthorized req error =
  if utf8_valid (data req)
  then Return {| status_code := 401; body := error_message error req |}
  else Raise UnicodeDecodeError.
Proof. unfold unauthorized, decode_utf8. by destruct (utf8_valid (data req)). Qed.

Lemma response_of_pair (db : Store) (o : Outcome Response) :
  response_of (pair db <$> o) = o.
Proof. by destruct o. Qed.

Section ServiceProofs.

Variable pwd_encrypt : string -> string -> string.
Variable pwd_verify : JValue -> string -> Outcome bool.
Variable encode : PyDict -> string.
Variable decode : string -> Outcome PyDict.
Variable bind_column : JValue -> Outcome (option string).

(** One step of a view: the bind of an outcome that is known. *)
Ltac run := cbn [mbind Outcome_bind].

(** *** Queries *)

Lemma first_by_user_id_cons (r : User) (db : Store) (v : option string) :
  first_by_user_id (r :: db) v =
  if decide (user_id r = v) then Some r else first_by_user_id db v.
Proof.
  unfold first_by_user_id. rewrite filter_cons. by case_decide.
Qed.

Lemma first_by_email_cons (r : User) (db : Store) (v : option string) :
  first_by_email (r :: db) v =
  if decide (email r = v) then Some r else first_by_email db v.
Proof.
  unfold first_by_email. rewrite filter_cons. by case_decide.
Qed.

Lemma first_by_user_id_Some (db : Store) (v : option string) (u : User) :
  first_by_user_id db v = Some u -> u ∈ db /\ user_id u = v.
Proof.
  induction db as [|r db IH]; [done|]. rewrite first_by_user_id_cons.
  case_decide.
  - intros [= <-]. split; [left|done].
  - intros [? ?]%IH. split; [by right|done].
Qed.

Lemma first_by_email_Some (db : Store) (v : option string) (u : User) :
  first_by_email db v = Some u -> u ∈ db /\ email u = v.
Proof.
  induction db as [|r db IH]; [done|]. rewrite first_by_email_cons.
  case_decide.
  - intros [= <-]. split; [left|done].
  - intros [? ?]%IH. split; [by right|done].
Qed.

(** The row that answered a query by user_id answers it again after its
    name was committed, with the new name. *)
Lemma first_by_user_id_commit_name (db : Store) (uid v : option string) (u : User) :
  first_by_user_id db uid = Some u ->
  first_by_user_id (commit_name db u v) uid = Some (with_name v u).
Proof.
  unfold commit_name. induction db as [|r db IH]; [done|].
  intros H. rewrite first_by_user_id_cons in H.
  rewrite fmap_cons, first_by_user_id_cons.
  destruct (decide (user_id r = uid)) as [Hr|Hr].
  - injection H as ->. rewrite bool_decide_eq_true_2 by done.
    simpl. by rewrite decide_True.
  - destruct (bool_decide (id r = id u)); simpl;
      rewrite decide_False by done; by apply IH.
Qed.


Lemma elem_of_commit_name (db : Store) (u : User) (v : option string) :
  u ∈ db -> with_name v u ∈ commit_name db u v.
Proof.
  intros Hu. unfold commit_name. apply list_elem_of_fmap. exists u.
  by rewrite bool_decide_eq_true_2.
Qed.

(** *** The claims of a token *)

Lemma claims_truthy (c : PyDict) (k : string) (v : option string) :
  c !! k = Some v -> data_truthy (DClaims c) && data_has k (DClaims c) = true.
Proof.
  intros Hk. simpl. rewrite (bool_decide_eq_true_2 (is_Some _)) by by eexists.
  rewrite bool_decide_eq_false_2; [done|].
  intros Hs. apply map_size_empty_iff in Hs. by subst.
Qed.

Lemma claims_without (c : PyDict) (k : string) :
  c !! k = None -> data_truthy (DClaims c) && data_has k (DClaims c) = false.
Proof.
  intros Hk. simpl. rewrite (bool_decide_eq_false_2 (is_Some _)).
  - apply andb_false_r.
  - rewrite Hk. by intros [? ?].
Qed.

Lemma validate_token_valid (t : string) (c : PyDict) :
  t ≠ "" -> decode t = Return c ->
  validate_token decode (Some t) = Return (DClaims c).
Proof. intros Ht Hd. destruct t; [done|]. simpl. by rewrite Hd. Qed.

Lemma validate_token_invalid (t : string) :
  decode t = Raise JWSError ->
  validate_token decode (Some t) = Return DNone \/
  validate_token decode (Some t) = Return DEmptyStr.
Proof. intros Hd. destruct t; [by left|]. right. simpl. by rewrite Hd. Qed.

Lemma validate_token_decoded (t : string) (c : PyDict) :
  decode t = Return c ->
  validate_token decode (Some t) = Return DNone \/
  validate_token decode (Some t) = Return (DClaims c).
Proof. intros Hd. destruct t; [by left|]. right. simpl. by rewrite Hd. Qed.


Lemma validate_token_propagates (t : string) (e : Exn) :
  t ≠ "" -> decode t = Raise e -> e ≠ JWSError ->
  validate_token decode (Some t) = Raise e.
Proof. intros Ht Hd He. destruct t; [done|]. simpl. rewrite Hd. by destruct e. Qed.

(** *** The views, step by step *)

Lemma object_truthy (m : gmap string JValue) (k : string) (v : JValue) :
  m !! k = Some v -> truthy (JObj m) = true.
Proof.
  intros Hk. simpl. rewrite bool_decide_eq_false_2; [done|].
  intros Hs. apply map_size_empty_iff in Hs. by subst.
Qed.

Lemma login_with_credentials (db : Store) (req : Request)
    (m : gmap string JValue) (e p : JValue) (c : option string) :
  get_json req = Return (JObj m) ->
  m !! "email" = Some e -> m !! "password" = Some p ->
  bind_column e = Return c ->
  login pwd_verify encode bind_column db req =
  match first_by_email db c with
  | Some user =>
      match verify_password pwd_verify user p with
      | Return true =>
          Return (jsonify {[ "token" := Some (encode (json user)) ]})
      | Return false => unauthorized req "Access denied"
      | Raise x => Raise x
      end
  | None => unauthorized req "Access denied"
  end.
Proof.
  intros Hj He Hp Hc. unfold login, py_and. rewrite Hj. simpl.
  rewrite bool_decide_eq_false_2.
  2:{ intros Hs. apply map_size_empty_iff in Hs. by subst. }
  simpl. rewrite !bool_decide_eq_true_2 by by eexists.
  simpl. rewrite He. simpl. rewrite Hc. simpl.
  destruct (first_by_email db c) as [user|]; [|done].
  rewrite Hp. simpl.
  by destruct (verify_password pwd_verify user p) as [[]|].
Qed.

Lemma profile_with_claims (db : Store) (req : Request) (t : string)
    (c : PyDict) (uid : option string) :
  header_token req = Some t -> t ≠ "" -> decode t = Return c ->
  c !! "user_id" = Some uid ->
  profile decode db req =
  match first_by_user_id db uid with
  | Some user => Return (jsonify (json user))
  | None => known_error req ("Respondent ID " ++ py_str uid ++ " not found.")
  end.
Proof.
  intros Ht Hne Hd Hu. unfold profile.
  rewrite Ht, (validate_token_valid _ _ Hne Hd).
  run. rewrite (claims_truthy _ _ _ Hu).
  cbn [data_getitem]. rewrite Hu. run.
  by destruct (first_by_user_id db uid).
Qed.

Lemma profile_without (db : Store) (req : Request) (d : TokenData) :
  validate_token decode (header_token req) = Return d ->
  data_truthy d && data_has "user_id" d = false ->
  profile decode db req =
  unauthorized req "Please provide a token header that includes a user_id.".
Proof.
  intros Hv Hd. unfold profile. rewrite Hv. run.
  by rewrite Hd.
Qed.

Lemma profile_update_with_claims (db : Store) (req : Request) (t : string)
    (c : PyDict) (uid : option string) (j : JValue) :
  header_token req = Some t -> t ≠ "" -> decode t = Return c ->
  c !! "user_id" = Some uid -> get_json req = Return j ->
  profile_update decode bind_column db req =
  match first_by_user_id db uid with
  | Some user =>
      match py_in "name" j with
      | Return true =>
          match py_getitem j "name" with
          | Return v =>
              match bind_column v with
              | Return v =>
                  Return (commit_name db user v,
                          jsonify (json (with_name v user)))
              | Raise x => Raise x
              end
          | Raise x => Raise x
          end
      | Return false => Return (db, jsonify (json user))
      | Raise x => Raise x
      end
  | None =>
      pair db <$>
        known_error req ("Respondent ID " ++ py_str uid ++ " not found.")
  end.
Proof.
  intros Ht Hne Hd Hu Hj. unfold profile_update.
  rewrite Ht, (validate_token_valid _ _ Hne Hd), Hj.
  run. rewrite (claims_truthy _ _ _ Hu).
  cbn [data_getitem]. rewrite Hu. run.
  destruct (first_by_user_id db uid) as [user|]; [|done].
  destruct (py_in "name" j) as [[]|]; run; [|done..].
  destruct (py_getitem j "name") as [v|]; run; [|done].
  by destruct (bind_column v).
Qed.

Lemma profile_update_without (db : Store) (req : Request) (d : TokenData)
    (j : JValue) :
  validate_token decode (header_token req) = Return d ->
  get_json req = Return j ->
  data_truthy d && data_has "user_id" d = false ->
  profile_update decode bind_column db req =
  pair db <$>
    unauthorized req "Please provide a token header that includes a user_id.".
Proof.
  intros Hv Hj Hd. unfold profile_update. rewrite Hv, Hj.
  run. by rewrite Hd.
Qed.

(** *** The public projection *)

Lemma json_lookup (u : User) :
  json u !! "user_id" = Some (user_id u) /\
  json u !! "name" = Some (name u) /\
  json u !! "email" = Some (email u).
Proof. unfold json. by simplify_map_eq. Qed.

Lemma json_dom (u : User) :
  dom (json u) = ({[ "user_id"; "name"; "email" ]} : gset string).
Proof.
  unfold json. rewrite !dom_insert_L, dom_singleton_L. set_solver.
Qed.


Lemma json_with_password_hash (h : option string) (u : User) :
  json (with_password_hash h u) = json u.
Proof. reflexivity. Qed.

Lemma first_by_user_id_rewrite_hashes (f : Z -> option string) (db : Store)
    (uid : option string) :
  first_by_user_id (rewrite_hashes f db) uid =
  (fun r => with_password_hash (f (id r)) r) <$> first_by_user_id db uid.
Proof.
  unfold rewrite_hashes. induction db as [|r db IH]; [done|].
  rewrite fmap_cons, !first_by_user_id_cons. simpl.
  by destruct (decide (user_id r = uid)).
Qed.

(** *** What a view can answer *)

Lemma login_answers (db : Store) (req : Request) (resp : Response) :
  login pwd_verify encode bind_column db req = Return resp ->
  (exists u, u ∈ db /\
     resp = jsonify {[ "token" := Some (encode (json u)) ]}) \/
  unauthorized req "Access denied" = Return resp \/
  unauthorized req
    "Please provide a Json message with 'email' and 'password' fields."
  = Return resp.
Proof.
  unfold login, py_and.
  destruct (get_json req) as [j|]; run; [|done].
  destruct (truthy j); run; [|by auto].
  destruct (py_in "email" j) as [[]|]; run; [|by auto|done].
  destruct (py_in "password" j) as [[]|]; run; [|by auto|done].
  destruct (py_getitem j "email") as [e|]; run; [|done].
  destruct (bind_column e) as [c|]; run; [|done].
  destruct (first_by_email db c) as [user|] eqn:Hu; [|by auto].
  destruct (py_getitem j "password") as [p|]; run; [|done].
  destruct (verify_password pwd_verify user p) as [[]|];
    run; [|by auto|done]. intros [= <-].
  left. exists user. by apply first_by_email_Some in Hu as [? _].
Qed.

Lemma profile_answers (db : Store) (req : Request) (resp : Response) :
  profile decode db req = Return resp ->
  (exists u, u ∈ db /\ resp = jsonify (json u)) \/
  (exists uid : option string,
     known_error req ("Respondent ID " ++ py_str uid ++ " not found.")
     = Return resp) \/
  unauthorized req "Please provide a token header that includes a user_id."
  = Return resp.
Proof.
  unfold profile.
  destruct (validate_token decode (header_token req)) as [d|];
    run; [|done].
  destruct (data_truthy d && data_has "user_id" d); [|by auto].
  destruct (data_getitem d "user_id") as [uid|]; run; [|done].
  destruct (first_by_user_id db uid) as [user|] eqn:Hu.
  - intros [= <-]. left. exists user.
    by apply first_by_user_id_Some in Hu as [? _].
  - intros H. right. left. by exists uid.
Qed.

Lemma profile_update_answers (db db' : Store) (req : Request) (resp : Response) :
  profile_update decode bind_column db req = Return (db', resp) ->
  (exists u, u ∈ db' /\ resp = jsonify (json u)) \/
  (exists uid : option string,
     known_error req ("Respondent ID " ++ py_str uid ++ " not found.")
     = Return resp) \/
  unauthorized req "Please provide a token header that includes a user_id."
  = Return resp.
Proof.
  unfold profile_update.
  destruct (validate_token decode (header_token req)) as [d|];
    run; [|done].
  destruct (get_json req) as [j|]; run; [|done].
  destruct (data_truthy d && data_has "user_id" d).
  2:{ intros [_ H]%pair_fmap_Return. auto. }
  destruct (data_getitem d "user_id") as [uid|]; run; [|done].
  destruct (first_by_user_id db uid) as [user|] eqn:Hu.
  2:{ intros [_ H]%pair_fmap_Return. right. left. by exists uid. }
  apply first_by_user_id_Some in Hu as [Hu _].
  destruct (py_in "name" j) as [[]|]; run; [| |done].
  2:{ intros [= <- <-]. left. by exists user. }
  destruct (py_getitem j "name") as [v|]; run; [|done].
  destruct (bind_column v) as [c|]; run; [|done].
  intros [= <- <-]. left. exists (with_name c user).
  split; [by apply elem_of_commit_name|done].
Qed.

Lemma profile_rewrite_hashes (f : Z -> option string) (db : Store) (req : Request) :
  profile decode (rewrite_hashes f db) req = profile decode db req.
Proof.
  unfold profile.
  destruct (validate_token decode (header_token req)) as [d|];
    run; [|done].
  destruct (data_truthy d && data_has "user_id" d); [|done].
  destruct (data_getitem d "user_id") as [uid|]; run; [|done].
  rewrite first_by_user_id_rewrite_hashes.
  by destruct (first_by_user_id db uid).
Qed.

Lemma profile_update_rewrite_hashes (f : Z -> option string) (db : Store)
    (req : Request) :
  response_of (profile_update decode bind_column (rewrite_hashes f db) req) =
  response_of (profile_update decode bind_column db req).
Proof.
  unfold profile_update.
  destruct (validate_token decode (header_token req)) as [d|];
    run; [|done].
  destruct (get_json req) as [j|]; run; [|done].
  destruct (data_truthy d && data_has "user_id" d);
    [|by rewrite !response_of_pair].
  destruct (data_getitem d "user_id") as [uid|]; run; [|done].
  rewrite first_by_user_id_rewrite_hashes.
  destruct (first_by_user_id db uid) as [user|];
    cbn [fmap option_fmap option_map]; [|by rewrite !response_of_pair].
  destruct (py_in "name" j) as [[]|]; run; [|done..].
  destruct (py_getitem j "name") as [v|]; run; [|done].
  by destruct (bind_column v).
Qed.

End ServiceProofs.

(** ** The concrete deployment *)

Module DemoFacts.

Import TokenCodec TokenCodecProofs.


Lemma decode_raises_JWSError (t : string) (e : Exn) :
  Demo.decode t = Raise e -> e = JWSError.
Proof.
  unfold Demo.decode, decode_or_raise.
  destruct (decode Demo.mac Demo.secret t); by intros [= <-].
Qed.

Lemma demo_decode_encode (c : PyDict) : Demo.decode (Demo.encode c) = Return c.
Proof.
  unfold Demo.decode, Demo.encode, decode_or_raise.
  by rewrite TokenCodecProofs.decode_encode.
Qed.

Lemma encode_nonempty (c : PyDict) : Demo.encode c ≠ "".
Proof. unfold Demo.encode. by rewrite encode_shape. Qed.

Lemma pwd_verify_encrypt (salt p : string) :
  Demo.pwd_verify (JStr p) (Demo.pwd_encrypt salt p) = Return true.
Proof.
  unfold Demo.pwd_verify, Demo.pwd_encrypt.
  rewrite PasswordHasherProofs.verify_encrypt.
  by rewrite bool_decide_eq_true_2.
Qed.

(** The scenarios of the service's own walk-through, on the accounts of
    [create_users]. *)

Example first_account : head Demo.db = Some Demo.nick.
Proof. reflexivity. Qed.

Example login_issues_token :
  Demo.login Demo.db
    (Demo.request "http://localhost:5003/login" None
       (Demo.credentials "nick.gravgaard@example.com" "password"))
  = Return (jsonify {[ "token" := Some (Demo.encode (json Demo.nick)) ]}).
Proof. by vm_compute. Qed.

Example profile_of_token :
  Demo.profile Demo.db
    (Demo.request "http://localhost:5003/profile"
       (Some (Demo.encode (json Demo.nick))) JNull)
  = Return (jsonify {[ "user_id" := Some "101";
                       "name" := Some "Nick Gravgaard";
                       "email" := Some "nick.gravgaard@example.com" ]}).
Proof. by vm_compute. Qed.

Example profile_without_token :
  status_code <$> Demo.profile Demo.db
    (Demo.request "http://localhost:5003/profile" None JNull) = Return 401%Z.
Proof. by vm_compute. Qed.

End DemoFacts.

(** * The statements of the specification *)

(** ** Token codec *)




(** ** Token validation *)



(** ** Login *)

(** C4, at the input where the code departs from it. Two login requests,
    the first naming an email that no row holds, the second a stored email.
    When the password of the second does not verify, the two are answered
    by the same call, [unauthorized("Access denied")], and alike if they
    have one URL and one body. When passlib's [verify] raises on the
    password of the second (one that is not a str, say), the exception
    leaves the view, while the first request, whose password is not looked
    at, is answered by [unauthorized]: the two outcomes differ. *)
Theorem login_failures_by_verification
    (pwd_verify : JValue -> string -> Outcome bool)
    (encode : PyDict -> string)
    (bind_column : JValue -> Outcome (option string))
    (db : Store) (r1 r2 : Request) (m1 m2 : gmap string JValue)
    (e1 p1 e2 p2 : JValue) (c1 c2 : option string) (u : User) :
  get_json r1 = Return (JObj m1) ->
  m1 !! "email" = Some e1 -> m1 !! "password" = Some p1 ->
  bind_column e1 = Return c1 -> first_by_email db c1 = None ->
  get_json r2 = Return (JObj m2) ->
  m2 !! "email" = Some e2 -> m2 !! "password" = Some p2 ->
  bind_column e2 = Return c2 -> first_by_email db c2 = Some u ->
  login pwd_verify encode bind_column db r1 = unauthorized r1 "Access denied" /\
  (verify_password pwd_verify u p2 = Return false ->
     login pwd_verify encode bind_column db r2 = unauthorized r2 "Access denied" /\
     (url r1 = url r2 -> data r1 = data r2 ->
      login pwd_verify encode bind_column db r1 =
      login pwd_verify encode bind_column db r2)) /\
  (forall x : Exn,
     verify_password pwd_verify u p2 = Raise x -> x ≠ UnicodeDecodeError ->
     login pwd_verify encode bind_column db r2 = Raise x /\
     login pwd_verify encode bind_column db r1 ≠
     login pwd_verify encode bind_column db r2).
Proof.
  intros Hj1 He1 Hp1 Hc1 Hu1 Hj2 He2 Hp2 Hc2 Hu2.
  rewrite (login_with_credentials _ _ _ _ _ _ _ _ _ Hj1 He1 Hp1 Hc1), Hu1.
  rewrite (login_with_credentials _ _ _ _ _ _ _ _ _ Hj2 He2 Hp2 Hc2), Hu2.
  split; [done|]. split.
  - intros ->. split; [done|]. intros Hurl Hdata.
    by apply error_responses_same_request.
  - intros x -> Hx. split; [done|].
    intros [-> _]%unauthorized_Raise. done.
Qed.

Lemma login_failures_by_verification_witness :
  let r1 := Demo.request "http://localhost:5003/login" None
              (JObj {[ "email" := JStr "unknown@example.com";
                       "password" := JInt 5 ]}) in
  let r2 := Demo.request "http://localhost:5003/login" None
              (JObj {[ "email" := JStr "nick.gravgaard@example.com";
                       "password" := JInt 5 ]}) in
  Demo.login Demo.db r1 =
    Return {| status_code := 401;
              body := {[ "message" :=
                Some "Access denied: http://localhost:5003/login" ]} |} /\
  Demo.login Demo.db r2 = Raise TypeError /\
  Demo.login Demo.db r1 ≠ Demo.login Demo.db r2.
Proof.
  intros r1 r2.
  destruct (login_failures_by_verification Demo.pwd_verify Demo.encode
              Demo.bind_column Demo.db r1 r2
              {[ "email" := JStr "unknown@example.com"; "password" := JInt 5 ]}
              {[ "email" := JStr "nick.gravgaard@example.com";
                 "password" := JInt 5 ]}
              (JStr "unknown@example.com") (JInt 5)
              (JStr "nick.gravgaard@example.com") (JInt 5)
              (Some "unknown@example.com") (Some "nick.gravgaard@example.com")
              Demo.nick eq_refl eq_refl eq_refl eq_refl eq_refl
              eq_refl eq_refl eq_refl eq_refl eq_refl) as (H1 & _ & H3).
  destruct (H3 TypeError eq_refl) as [H4 H5]; [discriminate|].
  split; [exact H1|]. split; [exact H4|exact H5].
Defined.

(** ** Passwords *)

(** C6. A user whose password_hash is null does not verify against any
    password, and passlib, which could raise, is not even consulted; a login
    that names such a user is denied whatever password it carries. *)
Theorem no_password_no_login
    (pwd_verify : JValue -> string -> Outcome bool)
    (encode : PyDict -> string)
    (bind_column : JValue -> Outcome (option string))
    (u : User) :
  password_hash u = None ->
  (forall password : JValue,
     verify_password pwd_verify u password = Return false) /\
  (forall (db : Store) (req : Request) (m : gmap string JValue)
          (e p : JValue) (c : option string),
     get_json req = Return (JObj m) ->
     m !! "email" = Some e -> m !! "password" = Some p ->
     bind_column e = Return c -> first_by_email db c = Some u ->
     login pwd_verify encode bind_column db req =
       unauthorized req "Access denied").
Proof.
  intros Hh.
  assert (forall password, verify_password pwd_verify u password = Return false)
    as Hv by (intros password; unfold verify_password; by rewrite Hh).
  split; [done|].
  intros db req m e p c Hj He Hp Hc Hu.
  by rewrite (login_with_credentials _ _ _ _ _ _ _ _ _ Hj He Hp Hc), Hu, Hv.
Qed.

Lemma no_password_no_login_witness :
  let u := with_password_hash None Demo.nick in
  (forall password : JValue,
     verify_password (fun _ _ => Raise TypeError) u password = Return false) /\
  Demo.login [u] (Demo.request "http://localhost:5003/login" None
                    (Demo.credentials "nick.gravgaard@example.com" "password"))
    = unauthorized
        (Demo.request "http://localhost:5003/login" None
           (Demo.credentials "nick.gravgaard@example.com" "password"))
        "Access denied".
Proof.
  intros u. split.
  - apply (no_password_no_login (fun _ _ => Raise TypeError) Demo.encode
             Demo.bind_column u eq_refl).
  - eapply (no_password_no_login Demo.pwd_verify Demo.encode Demo.bind_column
              u eq_refl); reflexivity.
Defined.

(** C7. After [set_password] with a password, [verify_password] with that
    password succeeds, whatever salt the hashing drew, and two salts give
    two hashes; with another password it succeeds only if the key
    derivation gives both passwords one digest under the salt. passlib's
    context is modelled from the specification, with the key derivation
    kept abstract: the hash string embeds the salt, which [verify] reads
    back. *)
Theorem verify_after_set_password
    (kdf : string -> string -> string) (salt : string) (u : User) (p : string) :
  verify_password (PasswordHasher.verify kdf)
    (set_password (PasswordHasher.encrypt kdf) salt u (Some p)) (JStr p)
  = Return true /\
  (forall salt' : string,
     salt' ≠ salt ->
     password_hash (set_password (PasswordHasher.encrypt kdf) salt' u (Some p)) ≠
     password_hash (set_password (PasswordHasher.encrypt kdf) salt u (Some p))) /\
  (forall p' : string,
     verify_password (PasswordHasher.verify kdf)
       (set_password (PasswordHasher.encrypt kdf) salt u (Some p)) (JStr p')
     = Return true ->
     kdf salt p' = kdf salt p).
Proof.
  unfold verify_password, set_password. cbn [password_hash with_password_hash].
  split; [|split].
  - rewrite PasswordHasherProofs.verify_encrypt.
    by rewrite bool_decide_eq_true_2.
  - intros salt' Hne H. apply (inj Some) in H.
    by apply PasswordHasherProofs.encrypt_inj in H as [? _].
  - intros p'. rewrite PasswordHasherProofs.verify_encrypt.
    intros [= H]. by apply bool_decide_eq_true in H.
Qed.

(** ** Profile *)

(** C5, as amended. A profile request (GET, or POST once [get_json] has
    returned) whose body is UTF-8, which the error responses decode: when
    its token is absent, empty, rejected by [decode] with [JWSError], or
    when its claims hold no user_id, it is answered 401 with the message
    about the token header; when its token is valid and names a user_id
    that no row holds, it is answered 400 with the message
    "Respondent ID <id> not found." followed by the URL. The table is left
    as it was. *)
Theorem profile_error_results
    (decode : string -> Outcome PyDict)
    (bind_column : JValue -> Outcome (option string))
    (db : Store) (req : Request) :
  utf8_valid (data req) = true ->
  (missing_or_invalid_token decode req ->
     profile decode db req =
       Return {| status_code := 401;
                 body := {[ "message" :=
                   Some ("Please provide a token header that includes a user_id."
                         ++ ": " ++ url req) ]} |}) /\
  (forall uid, subject_not_found decode db req uid ->
     profile decode db req =
       Return {| status_code := 400;
                 body := {[ "message" :=
                   Some (("Respondent ID " ++ py_str uid ++ " not found.")
                         ++ ": " ++ url req) ]} |}) /\
  (forall j, get_json req = Return j -> missing_or_invalid_token decode req ->
     profile_update decode bind_column db req =
       Return (db,
               {| status_code := 401;
                  body := {[ "message" :=
                    Some ("Please provide a token header that includes a user_id."
                          ++ ": " ++ url req) ]} |})) /\
  (forall j uid, get_json req = Return j -> subject_not_found decode db req uid ->
     profile_update decode bind_column db req =
       Return (db,
               {| status_code := 400;
                  body := {[ "message" :=
                    Some (("Respondent ID " ++ py_str uid ++ " not found.")
                          ++ ": " ++ url req) ]} |})).
Proof.
  intros Hutf.
  assert (missing_or_invalid_token decode req ->
          exists d, validate_token decode (header_token req) = Return d /\
                    data_truthy d && data_has "user_id" d = false) as Hmiss.
  { intros [H|[H|[(t & H & Hd)|(t & c & H & Hd & Hu)]]]; rewrite H.
    - by exists DNone.
    - by exists DNone.
    - destruct (validate_token_invalid decode t Hd) as [E|E]; rewrite E; eauto.
    - destruct (validate_token_decoded decode t c Hd) as [E|E]; rewrite E;
        eauto using claims_without. }
  split; [|split; [|split]].
  - intros (d & Hv & Hd)%Hmiss.
    rewrite (profile_without decode db req d) by done.
    by apply unauthorized_utf8.
  - intros uid (t & c & Ht & Hne & Hd & Hu & Hn).
    rewrite (profile_with_claims decode db req t c uid), Hn by done.
    by apply known_error_utf8.
  - intros j Hj (d & Hv & Hd)%Hmiss.
    rewrite (profile_update_without decode bind_column db req d j) by done.
    by rewrite unauthorized_utf8.
  - intros j uid Hj (t & c & Ht & Hne & Hd & Hu & Hn).
    rewrite (profile_update_with_claims decode bind_column db req t c uid j), Hn
      by done.
    by rewrite known_error_utf8.
Qed.

Lemma profile_error_results_witness :
  Demo.profile Demo.db (Demo.request "http://localhost:5003/profile" None JNull) =
    Return {| status_code := 401;
              body := {[ "message" :=
                Some "Please provide a token header that includes a user_id.: http://localhost:5003/profile" ]} |} /\
  Demo.profile Demo.db
    (Demo.request "http://localhost:5003/profile"
       (Some (Demo.encode {[ "user_id" := Some "999" ]})) JNull) =
    Return {| status_code := 400;
              body := {[ "message" :=
                Some "Respondent ID 999 not found.: http://localhost:5003/profile" ]} |}.
Proof.
  split.
  - destruct (profile_error_results Demo.decode Demo.bind_column Demo.db
                (Demo.request "http://localhost:5003/profile" None JNull)
                eq_refl)
      as [H _].
    apply H. by left.
  - destruct (profile_error_results Demo.decode Demo.bind_column Demo.db
                (Demo.request "http://localhost:5003/profile"
                   (Some (Demo.encode {[ "user_id" := Some "999" ]})) JNull)
                eq_refl)
      as (_ & H & _).
    apply (H (Some "999")).
    exists (Demo.encode {[ "user_id" := Some "999" ]}), {[ "user_id" := Some "999" ]}.
    split; [reflexivity|]. split; [apply DemoFacts.encode_nonempty|].
    split; [apply DemoFacts.demo_decode_encode|]. split; reflexivity.
Defined.

(** The statement C5 amends, that every profile request without a token is
    answered 401, fails twice: a POST whose body does not parse raises
    [BadRequest] before the token is looked at, and a GET whose body is not
    UTF-8 raises [UnicodeDecodeError] where the 401 is built. *)
Lemma profile_without_token_not_answered :
  profile_update Demo.decode Demo.bind_column Demo.db
    {| url := "http://localhost:5003/profile"; header_token := None;
       data := "{"; get_json := Raise BadRequest |} = Raise BadRequest /\
  profile Demo.decode Demo.db
    {| url := "http://localhost:5003/profile"; header_token := None;
       data := String "255" ""; get_json := Return JNull |}
  = Raise UnicodeDecodeError.
Proof. split; reflexivity. Qed.




(** C9. The projection [User.json] of a user has exactly the keys user_id,
    name and email, holding those three fields, and is the same whatever the
    password_hash. A token issued by [login] encodes the projection of a row
    of the table; a successful profile read or update answers the projection
    of a row; every other answer is what [unauthorized] or [known_error]
    returns for a fixed text, the user_id of the token and the URL. Replacing the password hashes of
    the table changes no answer of a profile read or update. *)
Theorem projection_is_public_fields
    (pwd_verify : JValue -> string -> Outcome bool)
    (encode : PyDict -> string)
    (decode : string -> Outcome PyDict)
    (bind_column : JValue -> Outcome (option string)) :
  (forall u : User,
     dom (json u) = ({[ "user_id"; "name"; "email" ]} : gset string) /\
     json u !! "user_id" = Some (user_id u) /\
     json u !! "name" = Some (name u) /\
     json u !! "email" = Some (email u) /\
     forall h, json (with_password_hash h u) = json u) /\
  (forall (db : Store) (req : Request) (resp : Response),
     login pwd_verify encode bind_column db req = Return resp ->
     (exists u, u ∈ db /\
        resp = jsonify {[ "token" := Some (encode (json u)) ]}) \/
     unauthorized req "Access denied" = Return resp \/
     unauthorized req
       "Please provide a Json message with 'email' and 'password' fields."
     = Return resp) /\
  (forall (db : Store) (req : Request) (resp : Response),
     profile decode db req = Return resp ->
     (exists u, u ∈ db /\ resp = jsonify (json u)) \/
     (exists uid : option string,
        known_error req ("Respondent ID " ++ py_str uid ++ " not found.")
        = Return resp) \/
     unauthorized req "Please provide a token header that includes a user_id."
     = Return resp) /\
  (forall (db db' : Store) (req : Request) (resp : Response),
     profile_update decode bind_column db req = Return (db', resp) ->
     (exists u, u ∈ db' /\ resp = jsonify (json u)) \/
     (exists uid : option string,
        known_error req ("Respondent ID " ++ py_str uid ++ " not found.")
        = Return resp) \/
     unauthorized req "Please provide a token header that includes a user_id."
     = Return resp) /\
  (forall (f : Z -> option string) (db : Store) (req : Request),
     profile decode (rewrite_hashes f db) req = profile decode db req) /\
  (forall (f : Z -> option string) (db : Store) (req : Request),
     response_of (profile_update decode bind_column (rewrite_hashes f db) req) =
     response_of (profile_update decode bind_column db req)).
Proof.
  split.
  { intros u. split; [apply json_dom|].
    destruct (json_lookup u) as (H1 & H2 & H3). by repeat split. }
  split; [apply login_answers|]. split; [apply profile_answers|].
  split; [apply profile_update_answers|].
  split; [apply profile_rewrite_hashes|apply profile_update_rewrite_hashes].
Qed.

(** C10. For a profile update with a valid token that resolves to a user and
    a body that is not a JSON object: when the body is absent or null, a
    boolean or a number, the test ["name" in json] raises [TypeError] and the
    view returns no response; when the body is a string or an array, the view
    raises [TypeError] only if the string contains "name" or the array has
    the element "name", and otherwise answers the unchanged projection and
    leaves the store as it was. *)
Theorem profile_update_body_not_object
    (decode : string -> Outcome PyDict)
    (bind_column : JValue -> Outcome (option string))
    (db : Store) (req : Request) (t : string) (claims : PyDict)
    (uid : option string) (user : User) (j : JValue) :
  header_token req = Some t -> t ≠ "" -> decode t = Return claims ->
  claims !! "user_id" = Some uid -> first_by_user_id db uid = Some user ->
  get_json req = Return j ->
  (forall m, j ≠ JObj m) ->
  profile_update decode bind_column db req =
  match j with
  | JStr s =>
      if occurs_in "name" s then Raise TypeError
      else Return (db, jsonify (json user))
  | JArr l =>
      if existsb (is_str "name") l then Raise TypeError
      else Return (db, jsonify (json user))
  | _ => Raise TypeError
  end.
Proof.
  intros Ht Hne Hd Hu Hfirst Hj Hobj.
  rewrite (profile_update_with_claims decode bind_column db req t claims uid j)
    by done.
  rewrite Hfirst. destruct j as [|b|n|f|s|l|m]; simpl; try done.
  by destruct (Hobj m).
Qed.

Lemma profile_update_body_not_object_witness :
  Demo.profile_update Demo.db
    (Demo.request "http://localhost:5003/profile"
       (Some (Demo.encode (json Demo.nick))) JNull) = Raise TypeError /\
  Demo.profile_update Demo.db
    (Demo.request "http://localhost:5003/profile"
       (Some (Demo.encode (json Demo.nick))) (JArr [JStr "name"]))
    = Raise TypeError.
Proof.
  split.
  - apply (profile_update_body_not_object Demo.decode Demo.bind_column Demo.db
             (Demo.request "http://localhost:5003/profile"
                (Some (Demo.encode (json Demo.nick))) JNull)
             (Demo.encode (json Demo.nick)) (json Demo.nick) (Some "101")
             Demo.nick JNull eq_refl (DemoFacts.encode_nonempty _)
             (DemoFacts.demo_decode_encode _) eq_refl eq_refl eq_refl).
    intros m. discriminate.
  - apply (profile_update_body_not_object Demo.decode Demo.bind_column Demo.db
             (Demo.request "http://localhost:5003/profile"
                (Some (Demo.encode (json Demo.nick))) (JArr [JStr "name"]))
             (Demo.encode (json Demo.nick)) (json Demo.nick) (Some "101")
             Demo.nick (JArr [JStr "name"]) eq_refl
             (DemoFacts.encode_nonempty _) (DemoFacts.demo_decode_encode _)
             eq_refl eq_refl eq_refl).
    intros m. discriminate.
Defined.

(** The statement C10 corrects, that every body which is not a JSON object
    makes the view raise, fails: with an empty array as body the view answers
    the projection. *)
Lemma profile_update_array_body_answered :
  ~ (forall (decode : string -> Outcome PyDict)
            (bind_column : JValue -> Outcome (option string))
            (db : Store) (req : Request) (t : string) (claims : PyDict)
            (uid : option string) (user : User) (j : JValue),
       header_token req = Some t -> t ≠ "" -> decode t = Return claims ->
       claims !! "user_id" = Some uid -> first_by_user_id db uid = Some user ->
       get_json req = Return j -> (forall m, j ≠ JObj m) ->
       exists e, profile_update decode bind_column db req = Raise e).
Proof.
  intros H.
  destruct (H Demo.decode Demo.bind_column Demo.db
              (Demo.request "http://localhost:5003/profile"
                 (Some (Demo.encode (json Demo.nick))) (JArr []))
              (Demo.encode (json Demo.nick)) (json Demo.nick) (Some "101")
              Demo.nick (JArr []) eq_refl (DemoFacts.encode_nonempty _)
              (DemoFacts.demo_decode_encode _) eq_refl eq_refl eq_refl)
    as [e He]; [intros m; discriminate|].
  vm_compute in He. discriminate.
Qed.

(** * Further properties of the code *)

(** ** Queries and commits *)

Section StoreFacts.

Lemma first_by_user_id_None (db : Store) (v : option string) :
  first_by_user_id db v = None <-> forall u, u ∈ db -> user_id u ≠ v.
Proof.
  induction db as [|r db IH]; [by split; [intros _ u ?%elem_of_nil|]|].
  rewrite first_by_user_id_cons. destruct (decide (user_id r = v)) as [Hr|Hr].
  - split; [done|]. intros H. destruct (H r); [left|done].
  - rewrite IH. split.
    + intros H u [->|Hu]%elem_of_cons; auto.
    + intros H u Hu. apply H. by right.
Qed.

Lemma first_by_email_None (db : Store) (v : option string) :
  first_by_email db v = None <-> forall u, u ∈ db -> email u ≠ v.
Proof.
  induction db as [|r db IH]; [by split; [intros _ u ?%elem_of_nil|]|].
  rewrite first_by_email_cons. destruct (decide (email r = v)) as [Hr|Hr].
  - split; [done|]. intros H. destruct (H r); [left|done].
  - rewrite IH. split.
    + intros H u [->|Hu]%elem_of_cons; auto.
    + intros H u Hu. apply H. by right.
Qed.

Lemma first_by_user_id_app (db l : Store) (v : option string) :
  first_by_user_id (db ++ l) v =
  match first_by_user_id db v with
  | Some u => Some u
  | None => first_by_user_id l v
  end.
Proof.
  induction db as [|r db IH]; [done|].
  rewrite <- app_comm_cons, !first_by_user_id_cons.
  by destruct (decide (user_id r = v)).
Qed.

Lemma first_by_email_app (db l : Store) (v : option string) :
  first_by_email (db ++ l) v =
  match first_by_email db v with
  | Some u => Some u
  | None => first_by_email l v
  end.
Proof.
  induction db as [|r db IH]; [done|].
  rewrite <- app_comm_cons, !first_by_email_cons.
  by destruct (decide (email r = v)).
Qed.

(** Where the user_ids of the table are distinct, a row is the answer to the
    query by its own user_id. *)
Lemma first_by_user_id_own (db : Store) (u : User) :
  NoDup (user_id <$> db) -> u ∈ db -> first_by_user_id db (user_id u) = Some u.
Proof.
  induction db as [|r db IH]; [by intros _ ?%elem_of_nil|].
  rewrite fmap_cons, NoDup_cons, first_by_user_id_cons.
  intros [Hr Hdb] [->|Hu]%elem_of_cons; [by rewrite decide_True|].
  rewrite decide_False; [by apply IH|].
  intros E. apply Hr. rewrite E. by apply list_elem_of_fmap_2.
Qed.

(** A commit of a name changes the answer of a query only by the name of the
    row the query finds. *)
Lemma first_by_user_id_commit (db : Store) (u : User) (v uid : option string) :
  first_by_user_id (commit_name db u v) uid =
  (fun r => if bool_decide (id r = id u) then with_name v r else r)
    <$> first_by_user_id db uid.
Proof.
  unfold commit_name. induction db as [|r db IH]; [done|].
  rewrite fmap_cons, !first_by_user_id_cons.
  assert (user_id (if bool_decide (id r = id u) then with_name v r else r)
          = user_id r) as -> by by destruct (bool_decide _).
  by destruct (decide (user_id r = uid)).
Qed.

Lemma first_by_email_commit (db : Store) (u : User) (v c : option string) :
  first_by_email (commit_name db u v) c =
  (fun r => if bool_decide (id r = id u) then with_name v r else r)
    <$> first_by_email db c.
Proof.
  unfold commit_name. induction db as [|r db IH]; [done|].
  rewrite fmap_cons, !first_by_email_cons.
  assert (email (if bool_decide (id r = id u) then with_name v r else r)
          = email r) as -> by by destruct (bool_decide _).
  by destruct (decide (email r = c)).
Qed.

Lemma commit_name_twice (db : Store) (u : User) (v : option string) :
  commit_name (commit_name db u v) (with_name v u) v = commit_name db u v.
Proof.
  unfold commit_name. rewrite <- list_fmap_compose.
  apply list_fmap_ext. intros i r _. simpl.
  by destruct (bool_decide (id r = id u)) eqn:E; simpl; rewrite E.
Qed.

Lemma next_id_above (db : Store) (u : User) : u ∈ db -> (id u < next_id db)%Z.
Proof.
  unfold next_id. induction db as [|r db IH]; [by intros ?%elem_of_nil|].
  rewrite fmap_cons. simpl. intros [->|Hu]%elem_of_cons; [lia|].
  specialize (IH Hu). lia.
Qed.

End StoreFacts.

(** ** The accounts of [create_users] *)

Section FixtureFacts.

Variable pwd_encrypt : string -> string -> string.

Lemma create_user_prefix (db : Store) (salt : string)
    (user : string * string * string) :
  db `prefix_of` create_user pwd_encrypt db salt user.
Proof.
  destruct user as [[uid mail] nm]. unfold create_user.
  destruct (first_by_user_id db (Some uid)); [done|]. by eexists.
Qed.

Lemma first_by_user_id_prefix (db db' : Store) (v : option string) :
  db `prefix_of` db' -> is_Some (first_by_user_id db v) ->
  first_by_user_id db' v = first_by_user_id db v.
Proof.
  intros [k ->] [u Hu]. by rewrite first_by_user_id_app, Hu.
Qed.

Lemma create_user_present (db : Store) (salt uid mail nm : string) :
  is_Some (first_by_user_id (create_user pwd_encrypt db salt (uid, mail, nm))
             (Some uid)).
Proof.
  unfold create_user.
  destruct (first_by_user_id db (Some uid)) as [u|] eqn:E; [by rewrite E|].
  rewrite first_by_user_id_app, E, first_by_user_id_cons. simpl.
  by rewrite decide_True.
Qed.

Lemma create_user_noop (db : Store) (salt uid mail nm : string) :
  is_Some (first_by_user_id db (Some uid)) ->
  create_user pwd_encrypt db salt (uid, mail, nm) = db.
Proof. intros [u Hu]. unfold create_user. by rewrite Hu. Qed.

Lemma create_user_keys_distinct (db : Store) (salt uid mail nm : string) :
  insert_admitted db (uid, mail, nm) -> keys_distinct db ->
  keys_distinct (create_user pwd_encrypt db salt (uid, mail, nm)).
Proof.
  intros Hadm (Hid & Huid & Hmail). unfold create_user.
  destruct (first_by_user_id db (Some uid)) as [u|] eqn:E; [done|].
  destruct Hadm as [Hfree|[? ?]]; simpl in *; [|congruence].
  unfold keys_distinct.
  rewrite fmap_app, !omap_app. simpl. repeat split.
  - apply NoDup_app. split; [done|]. split; [|apply NoDup_singleton].
    intros i (r & Hi & Hr)%list_elem_of_fmap Hi'%list_elem_of_singleton.
    apply next_id_above in Hr. simpl in Hi'. lia.
  - apply NoDup_app. split; [done|]. split; [|apply NoDup_singleton].
    intros i (r & Hr & Hi)%list_elem_of_omap Hi'%list_elem_of_singleton.
    subst i. by eapply first_by_user_id_None in E.
  - apply NoDup_app. split; [done|]. split; [|apply NoDup_singleton].
    intros i (r & Hr & Hi)%list_elem_of_omap Hi'%list_elem_of_singleton.
    subst i. by eapply first_by_email_None in Hfree.
Qed.

(** The email of a turn that went through cannot block a later turn for
    another email. *)
Lemma create_user_admits_rest (db : Store) (salt uid mail nm : string)
    (user : string * string * string) :
  user.1.2 ≠ mail -> insert_admitted db user ->
  insert_admitted (create_user pwd_encrypt db salt (uid, mail, nm)) user.
Proof.
  intros Hne [Hfree|Hthere].
  - left. unfold create_user.
    destruct (first_by_user_id db (Some uid)); [done|].
    rewrite first_by_email_app, Hfree, first_by_email_cons. simpl.
    rewrite decide_False; [done|]. congruence.
  - right. rewrite (first_by_user_id_prefix db); [done| |done].
    apply create_user_prefix.
Qed.

Section Loop.

Variable salts : nat -> string.

(** The loop of [create_users] over any list of accounts. *)
Lemma create_users_loop (l : list (nat * (string * string * string))) :
  NoDup ((fun x => x.2.1.2) <$> l) ->
  forall db : Store,
    Forall (fun x => insert_admitted db x.2) l -> keys_distinct db ->
    let db' := foldl (fun db '(n, user) => create_user pwd_encrypt db (salts n) user)
                 db l in
    db `prefix_of` db' /\
    Forall (fun x => is_Some (first_by_user_id db' (Some x.2.1.1))) l /\
    keys_distinct db'.
Proof.
  induction l as [|[n [[uid mail] nm]] l IH]; intros Hl db Hadm Hkeys; simpl.
  { done. }
  rewrite fmap_cons in Hl. apply NoDup_cons in Hl as [Hmail Hl].
  apply Forall_cons in Hadm as [Hhere Hrest]. simpl in Hhere.
  destruct (IH Hl (create_user pwd_encrypt db (salts n) (uid, mail, nm)))
    as (Hpre & Hall & Hk).
  - apply Forall_forall. intros x Hx. apply create_user_admits_rest.
    + intros E. apply Hmail. simpl. rewrite <- E.
      by apply (list_elem_of_fmap_2 (fun x => x.2.1.2)).
    + by eapply Forall_forall in Hrest.
  - by apply create_user_keys_distinct.
  - split; [|split; [|done]].
    + etrans; [apply create_user_prefix|done].
    + apply Forall_cons. split; [|done]. simpl.
      rewrite (first_by_user_id_prefix _ _ _ Hpre); apply create_user_present.
Qed.

Lemma create_users_loop_noop (l : list (nat * (string * string * string)))
    (db : Store) :
  Forall (fun x => is_Some (first_by_user_id db (Some x.2.1.1))) l ->
  foldl (fun db '(n, user) => create_user pwd_encrypt db (salts n) user) db l = db.
Proof.
  induction 1 as [|[n [[uid mail] nm]] l Hx _ IH]; [done|].
  cbn [foldl]. by rewrite create_user_noop.
Qed.

End Loop.

Lemma users_indexed (uid mail nm : string) :
  (uid, mail, nm) ∈ users <-> exists n, (n, (uid, mail, nm)) ∈ imap pair users.
Proof.
  split.
  - intros (n & Hn)%list_elem_of_lookup_1. exists n.
    apply list_elem_of_lookup. exists n. by rewrite list_lookup_imap, Hn.
  - intros (n & (i & Hi)%list_elem_of_lookup_1).
    rewrite list_lookup_imap in Hi.
    destruct (users !! i) as [x|] eqn:E; simplify_eq/=.
    by eapply list_elem_of_lookup_2.
Qed.

End FixtureFacts.

(** X1. One turn of the loop of [create_users], where the unique index on
    email admits the insert: the rows already there stay as they are and in
    place, the user_id of the turn is in the table afterwards, and primary
    keys, user_ids and emails stay distinct. *)
Theorem create_user_keeps_keys_distinct
    (pwd_encrypt : string -> string -> string)
    (db : Store) (salt uid mail nm : string) :
  insert_admitted db (uid, mail, nm) -> keys_distinct db ->
  db `prefix_of` create_user pwd_encrypt db salt (uid, mail, nm) /\
  is_Some (first_by_user_id (create_user pwd_encrypt db salt (uid, mail, nm))
             (Some uid)) /\
  keys_distinct (create_user pwd_encrypt db salt (uid, mail, nm)).
Proof.
  intros Hadm Hkeys.
  split; [apply create_user_prefix|].
  split; [apply create_user_present|by apply create_user_keys_distinct].
Qed.

Lemma create_user_keeps_keys_distinct_witness :
  Demo.db `prefix_of`
    create_user Demo.pwd_encrypt Demo.db "s" ("111", "new@example.com", "New") /\
  is_Some (first_by_user_id
             (create_user Demo.pwd_encrypt Demo.db "s"
                ("111", "new@example.com", "New")) (Some "111")) /\
  keys_distinct
    (create_user Demo.pwd_encrypt Demo.db "s" ("111", "new@example.com", "New")).
Proof.
  apply (create_user_keeps_keys_distinct Demo.pwd_encrypt Demo.db "s" "111"
           "new@example.com" "New").
  - by left.
  - unfold keys_distinct.
    repeat split; apply (bool_decide_unpack _); by vm_compute.
Defined.

(** X2. [create_users] on a table with distinct keys, where the unique index
    on email admits every insert: the rows already there stay, every listed
    user_id is in the table afterwards, the keys are still distinct, and a
    second run, whatever salts it draws, changes nothing. *)
Theorem create_users_seeds_once
    (pwd_encrypt : string -> string -> string) (salts salts' : nat -> string)
    (db : Store) :
  (forall user, user ∈ users -> insert_admitted db user) ->
  keys_distinct db ->
  db `prefix_of` create_users pwd_encrypt salts db /\
  (forall uid mail nm, (uid, mail, nm) ∈ users ->
     is_Some (first_by_user_id (create_users pwd_encrypt salts db) (Some uid))) /\
  keys_distinct (create_users pwd_encrypt salts db) /\
  create_users pwd_encrypt salts' (create_users pwd_encrypt salts db)
    = create_users pwd_encrypt salts db.
Proof.
  intros Hadm Hkeys.
  destruct (create_users_loop pwd_encrypt salts (imap pair users)) with (db := db)
    as (Hpre & Hall & Hk).
  - apply (bool_decide_unpack _). by vm_compute.
  - apply Forall_forall. intros [n [[uid mail] nm]] Hx. apply Hadm.
    apply users_indexed. by exists n.
  - done.
  - split; [done|]. split; [|split; [done|]].
    + intros uid mail nm (n & Hn)%users_indexed.
      rewrite Forall_forall in Hall. exact (Hall (n, (uid, mail, nm)) Hn).
    + by apply create_users_loop_noop.
Qed.

Lemma create_users_seeds_once_witness :
  keys_distinct Demo.db /\
  create_users Demo.pwd_encrypt (fun _ => "other salt") Demo.db = Demo.db.
Proof.
  destruct (create_users_seeds_once Demo.pwd_encrypt Demo.salts
              (fun _ => "other salt") recreate_database)
    as (_ & _ & H3 & H4).
  - intros user _. by left.
  - repeat split; constructor.
  - split; [exact H3|exact H4].
Defined.

(** ** Login *)

Section LoginFacts.

Variable pwd_encrypt : string -> string -> string.
Variable pwd_verify : JValue -> string -> Outcome bool.
Variable encode : PyDict -> string.
Variable bind_column : JValue -> Outcome (option string).

(** The row of a listed account in the table [create_users] builds from
    nothing. *)
Lemma seeded_row (salts : nat -> string) (uid mail nm : string) :
  (uid, mail, nm) ∈ users ->
  exists (k : Z) (n : nat),
    first_by_email (create_users pwd_encrypt salts recreate_database) (Some mail)
    = Some {| id := k; user_id := Some uid; name := Some nm; email := Some mail;
              password_hash := Some (pwd_encrypt (salts n) "password") |}.
Proof.
  unfold users. intros H.
  repeat (apply elem_of_cons in H as [H|H];
          [injection H as -> -> ->; do 2 eexists; vm_compute; reflexivity|]).
  by apply elem_of_nil in H.
Qed.

Lemma login_without_fields (db : Store) (req : Request) (j : JValue) :
  get_json req = Return j ->
  truthy j = false \/ py_in "email" j = Return false \/
  (py_in "email" j = Return true /\ py_in "password" j = Return false) ->
  login pwd_verify encode bind_column db req =
  unauthorized req
    "Please provide a Json message with 'email' and 'password' fields.".
Proof.
  intros Hj H. unfold login, py_and. rewrite Hj. cbn [mbind Outcome_bind].
  destruct (truthy j); [|done].
  destruct H as [H|[H|[H1 H2]]]; [done|by rewrite H|by rewrite H1, H2].
Qed.

End LoginFacts.

(** X3. On the table that [create_users] builds from an empty one, every
    listed account logs in with its email and the password "password", and
    the token it gets encodes its own user_id, name and email. passlib and
    the storage engine are parameters: [verify] accepts what [encrypt]
    produced, and a str binds as itself. *)
Theorem seeded_accounts_log_in
    (pwd_encrypt : string -> string -> string)
    (pwd_verify : JValue -> string -> Outcome bool)
    (encode : PyDict -> string)
    (bind_column : JValue -> Outcome (option string)) :
  (forall salt p : string, pwd_verify (JStr p) (pwd_encrypt salt p) = Return true) ->
  (forall s : string, bind_column (JStr s) = Return (Some s)) ->
  forall (salts : nat -> string) (req : Request) (m : gmap string JValue)
         (uid mail nm : string),
    (uid, mail, nm) ∈ users ->
    get_json req = Return (JObj m) ->
    m !! "email" = Some (JStr mail) -> m !! "password" = Some (JStr "password") ->
    login pwd_verify encode bind_column
      (create_users pwd_encrypt salts recreate_database) req
    = Return (jsonify {[ "token" := Some (encode
        {[ "user_id" := Some uid; "name" := Some nm; "email" := Some mail ]}) ]}).
Proof.
  intros Hctx Hbind salts req m uid mail nm Hin Hj He Hp.
  destruct (seeded_row pwd_encrypt salts uid mail nm Hin) as (k & n & Hrow).
  rewrite (login_with_credentials pwd_verify encode bind_column _ req m
             (JStr mail) (JStr "password") (Some mail) Hj He Hp (Hbind mail)).
  rewrite Hrow. unfold verify_password. simpl. by rewrite Hctx.
Qed.

Lemma seeded_accounts_log_in_witness :
  Demo.login Demo.db
    (Demo.request "http://localhost:5003/login" None
       (Demo.credentials "rob.kent@example.com" "password"))
  = Return (jsonify {[ "token" := Some (Demo.encode
      {[ "user_id" := Some "110"; "name" := Some "Rob Kent";
         "email" := Some "rob.kent@example.com" ]}) ]}).
Proof.
  apply (seeded_accounts_log_in Demo.pwd_encrypt Demo.pwd_verify Demo.encode
           Demo.bind_column DemoFacts.pwd_verify_encrypt (fun s => eq_refl)
           Demo.salts
           (Demo.request "http://localhost:5003/login" None
              (Demo.credentials "rob.kent@example.com" "password"))
           {[ "email" := JStr "rob.kent@example.com";
              "password" := JStr "password" ]}
           "110" "rob.kent@example.com" "Rob Kent").
  - unfold users. set_solver.
  - reflexivity.
  - reflexivity.
  - reflexivity.
Defined.

(** X4. The token that a successful login hands out, presented in the token
    header of a profile request, is answered with the projection of the
    first row of the table that has the user_id of the user who logged in;
    where the user_ids of the table are distinct, that is the projection of
    the user who logged in. [encode] and [decode] are parameters: decoding
    an issued token gives its claims, and no token is the empty string. *)
Theorem login_token_opens_profile
    (pwd_verify : JValue -> string -> Outcome bool)
    (encode : PyDict -> string) (decode : string -> Outcome PyDict)
    (bind_column : JValue -> Outcome (option string))
    (db : Store) (req req' : Request) (resp : Response) (tok : string) :
  (forall c : PyDict, decode (encode c) = Return c) ->
  (forall c : PyDict, encode c ≠ "") ->
  login pwd_verify encode bind_column db req = Return resp ->
  body resp !! "token" = Some (Some tok) ->
  header_token req' = Some tok ->
  exists u u' : User,
    u ∈ db /\ tok = encode (json u) /\
    first_by_user_id db (user_id u) = Some u' /\
    profile decode db req' = Return (jsonify (json u')) /\
    (NoDup (user_id <$> db) -> u' = u).
Proof.
  intros Hround Hne Hlogin Htok Hhdr.
  destruct (login_answers pwd_verify encode bind_column db req resp Hlogin)
    as [(u & Hu & ->)|[H|H]];
    [|apply unauthorized_Return in H as [_ ->]; done..].
  simpl in Htok. rewrite lookup_singleton_eq in Htok. injection Htok as <-.
  destruct (first_by_user_id db (user_id u)) as [u'|] eqn:Hfirst.
  2:{ eapply first_by_user_id_None in Hfirst; [|done]. done. }
  exists u, u'. split; [done|]. split; [done|]. split; [done|]. split.
  - rewrite (profile_with_claims decode db req' (encode (json u)) (json u)
               (user_id u)); [by rewrite Hfirst|done|apply Hne|apply Hround|].
    apply json_lookup.
  - intros Hdup. rewrite (first_by_user_id_own db u Hdup Hu) in Hfirst.
    congruence.
Qed.

Lemma login_token_opens_profile_witness :
  exists u u' : User,
    u ∈ Demo.db /\ Demo.encode (json Demo.nick) = Demo.encode (json u) /\
    first_by_user_id Demo.db (user_id u) = Some u' /\
    Demo.profile Demo.db
      (Demo.request "http://localhost:5003/profile"
         (Some (Demo.encode (json Demo.nick))) JNull)
    = Return (jsonify (json u')) /\
    (NoDup (user_id <$> Demo.db) -> u' = u).
Proof.
  apply (login_token_opens_profile Demo.pwd_verify Demo.encode Demo.decode
           Demo.bind_column Demo.db
           (Demo.request "http://localhost:5003/login" None
              (Demo.credentials "nick.gravgaard@example.com" "password"))
           (Demo.request "http://localhost:5003/profile"
              (Some (Demo.encode (json Demo.nick))) JNull)
           (jsonify {[ "token" := Some (Demo.encode (json Demo.nick)) ]})
           (Demo.encode (json Demo.nick))
           DemoFacts.demo_decode_encode DemoFacts.encode_nonempty).
  - by vm_compute.
  - reflexivity.
  - reflexivity.
Defined.

(** X5. A login whose body is false as a condition (absent or null, false,
    zero, or an empty string, array or object), or does not hold "email", or
    holds "email" but not "password", is answered by [unauthorized] with the
    request for the two fields: 401 when the bytes of the body are UTF-8,
    [UnicodeDecodeError] when they are not. The table and passlib are not
    consulted. *)
Theorem login_missing_fields
    (pwd_verify : JValue -> string -> Outcome bool)
    (encode : PyDict -> string)
    (bind_column : JValue -> Outcome (option string))
    (db : Store) (req : Request) (j : JValue) :
  get_json req = Return j ->
  truthy j = false \/ py_in "email" j = Return false \/
  (py_in "email" j = Return true /\ py_in "password" j = Return false) ->
  login pwd_verify encode bind_column db req =
  if utf8_valid (data req)
  then Return {| status_code := 401;
                 body := {[ "message" :=
                   Some ("Please provide a Json message with 'email' and 'password' fields."
                         ++ ": " ++ url req) ]} |}
  else Raise UnicodeDecodeError.
Proof.
  intros Hj H. rewrite (login_without_fields _ _ _ _ _ j Hj H).
  apply unauthorized_cases.
Qed.

Lemma login_missing_fields_witness :
  Demo.login Demo.db
    (Demo.request "http://localhost:5003/login" None
       (JObj {[ "email" := JStr "nick.gravgaard@example.com" ]}))
  = Return {| status_code := 401;
              body := {[ "message" :=
                Some "Please provide a Json message with 'email' and 'password' fields.: http://localhost:5003/login" ]} |}.
Proof.
  apply (login_missing_fields Demo.pwd_verify Demo.encode Demo.bind_column
           Demo.db
           (Demo.request "http://localhost:5003/login" None
              (JObj {[ "email" := JStr "nick.gravgaard@example.com" ]}))
           (JObj {[ "email" := JStr "nick.gravgaard@example.com" ]}) eq_refl).
  right. right. by split.
Defined.

(** X6. A login whose body is not a JSON object gets no token: it is
    answered by [unauthorized] with the request for the two fields (401 when
    the bytes of the body are UTF-8, [UnicodeDecodeError] when they are
    not), or the view raises [TypeError] (at ["email" in credentials] for a
    number or [true], at [credentials["email"]] for a string or an array
    that holds both words). *)
Theorem login_body_not_object
    (pwd_verify : JValue -> string -> Outcome bool)
    (encode : PyDict -> string)
    (bind_column : JValue -> Outcome (option string))
    (db : Store) (req : Request) (j : JValue) :
  get_json req = Return j -> (forall m, j ≠ JObj m) ->
  login pwd_verify encode bind_column db req =
    (if utf8_valid (data req)
     then Return {| status_code := 401;
                    body := {[ "message" :=
                      Some ("Please provide a Json message with 'email' and 'password' fields."
                            ++ ": " ++ url req) ]} |}
     else Raise UnicodeDecodeError)
  \/ login pwd_verify encode bind_column db req = Raise TypeError.
Proof.
  intros Hj Hobj.
  pose proof (unauthorized_cases req
    "Please provide a Json message with 'email' and 'password' fields.") as Hc.
  unfold error_message in Hc. rewrite <- Hc. clear Hc.
  unfold login, py_and. rewrite Hj. cbn [mbind Outcome_bind].
  destruct (truthy j); [|by left].
  destruct j as [|b|n|f|s|l|m]; cbn [py_in mbind Outcome_bind py_getitem];
    try by right.
  - destruct (occurs_in "email" s); [|by left]. cbn [mbind Outcome_bind].
    destruct (occurs_in "password" s); [by right|by left].
  - destruct (existsb (is_str "email") l); [|by left]. cbn [mbind Outcome_bind].
    destruct (existsb (is_str "password") l); [by right|by left].
  - by destruct (Hobj m).
Qed.

Lemma login_body_not_object_witness :
  Demo.login Demo.db
    (Demo.request "http://localhost:5003/login" None
       (JArr [JStr "email"; JStr "password"])) = Raise TypeError.
Proof.
  destruct (login_body_not_object Demo.pwd_verify Demo.encode Demo.bind_column
              Demo.db
              (Demo.request "http://localhost:5003/login" None
                 (JArr [JStr "email"; JStr "password"]))
              (JArr [JStr "email"; JStr "password"]) eq_refl) as [H|H].
  - intros m. discriminate.
  - vm_compute in H. discriminate.
  - exact H.
Defined.

(** X7. When the email of a login is in the table and passlib's [verify]
    raises on the password given (one that is not a str, say), the exception
    leaves the view and [unauthorized] is not called, unlike for an email
    that is not in the table, where the password is not looked at and the
    view ends in [unauthorized("Access denied")]. *)
Theorem login_verify_error_escapes
    (pwd_verify : JValue -> string -> Outcome bool)
    (encode : PyDict -> string)
    (bind_column : JValue -> Outcome (option string))
    (db : Store) (req : Request) (m : gmap string JValue) (e p : JValue)
    (c : option string) (u : User) (h : string) (x : Exn) :
  get_json req = Return (JObj m) ->
  m !! "email" = Some e -> m !! "password" = Some p ->
  bind_column e = Return c ->
  first_by_email db c = Some u -> password_hash u = Some h ->
  pwd_verify p h = Raise x ->
  login pwd_verify encode bind_column db req = Raise x /\
  forall (req' : Request) (m' : gmap string JValue) (e' : JValue)
         (c' : option string),
    get_json req' = Return (JObj m') ->
    m' !! "email" = Some e' -> m' !! "password" = Some p ->
    bind_column e' = Return c' -> first_by_email db c' = None ->
    login pwd_verify encode bind_column db req' =
      unauthorized req' "Access denied".
Proof.
  intros Hj He Hp Hc Hu Hh Hx. split.
  - rewrite (login_with_credentials _ _ _ _ _ _ _ _ _ Hj He Hp Hc), Hu.
    unfold verify_password. by rewrite Hh, Hx.
  - intros req' m' e' c' Hj' He' Hp' Hc' Hu'.
    by rewrite (login_with_credentials _ _ _ _ _ _ _ _ _ Hj' He' Hp' Hc'), Hu'.
Qed.

Lemma login_verify_error_escapes_witness :
  Demo.login Demo.db
    (Demo.request "http://localhost:5003/login" None
       (JObj {[ "email" := JStr "nick.gravgaard@example.com";
                "password" := JInt 5 ]})) = Raise TypeError.
Proof.
  apply (login_verify_error_escapes Demo.pwd_verify Demo.encode
           Demo.bind_column Demo.db
           (Demo.request "http://localhost:5003/login" None
              (JObj {[ "email" := JStr "nick.gravgaard@example.com";
                       "password" := JInt 5 ]}))
           {[ "email" := JStr "nick.gravgaard@example.com";
              "password" := JInt 5 ]}
           (JStr "nick.gravgaard@example.com") (JInt 5)
           (Some "nick.gravgaard@example.com") Demo.nick
           (Demo.pwd_encrypt "0" "password") TypeError);
    reflexivity.
Defined.

(** ** Profile *)

Section ProfileFacts.

Variable pwd_verify : JValue -> string -> Outcome bool.
Variable encode : PyDict -> string.
Variable decode : string -> Outcome PyDict.
Variable bind_column : JValue -> Outcome (option string).

Lemma validate_token_claims (token : option string) (c : PyDict) :
  validate_token decode token = Return (DClaims c) ->
  exists t, token = Some t /\ t ≠ "" /\ decode t = Return c.
Proof.
  destruct token as [[|a t]|]; simpl; [done| |done].
  destruct (decode (String a t)) as [c'|[]] eqn:E; intros [= <-].
  by exists (String a t).
Qed.

Lemma resolves_unique (db : Store) (req : Request) (u u' : User) :
  resolves decode db req u -> resolves decode db req u' -> u = u'.
Proof.
  intros (t & c & uid & Ht & _ & Hd & Hu & Hf)
         (t' & c' & uid' & Ht' & _ & Hd' & Hu' & Hf').
  congruence.
Qed.

(** A profile update that returns leaves the table as it was, or with the
    name of the user it resolved committed. *)
Lemma profile_update_store (db db' : Store) (req : Request) (resp : Response) :
  profile_update decode bind_column db req = Return (db', resp) ->
  db' = db \/
  exists user c, resolves decode db req user /\ db' = commit_name db user c.
Proof.
  unfold profile_update.
  destruct (validate_token decode (header_token req)) as [d|] eqn:Hv;
    cbn [mbind Outcome_bind]; [|done].
  destruct (get_json req) as [j|]; cbn [mbind Outcome_bind]; [|done].
  destruct (data_truthy d && data_has "user_id" d) eqn:Hd.
  2:{ intros [-> _]%pair_fmap_Return. by left. }
  destruct d as [| |c]; [done..|]. cbn [data_getitem].
  destruct (c !! "user_id") as [uid|] eqn:Hu; cbn [mbind Outcome_bind]; [|done].
  destruct (first_by_user_id db uid) as [user|] eqn:Hf.
  2:{ intros [-> _]%pair_fmap_Return. by left. }
  destruct (py_in "name" j) as [[]|]; cbn [mbind Outcome_bind]; [| |done].
  2:{ intros [= <- <-]. by left. }
  destruct (py_getitem j "name") as [v|]; cbn [mbind Outcome_bind]; [|done].
  destruct (bind_column v) as [v'|]; cbn [mbind Outcome_bind]; [|done].
  intros [= <- <-]. right. exists user, v'. split; [|done].
  apply validate_token_claims in Hv as (t & Ht & Hne & Hdec).
  by exists t, c, uid.
Qed.

Lemma login_commit_name (db : Store) (u : User) (v : option string)
    (req : Request) :
  status_code <$> login pwd_verify encode bind_column (commit_name db u v) req =
  status_code <$> login pwd_verify encode bind_column db req.
Proof.
  unfold login.
  destruct (get_json req) as [j|]; cbn [mbind Outcome_bind]; [|done].
  destruct (py_and _ _) as [[]|]; cbn [mbind Outcome_bind]; [|done..].
  destruct (py_getitem j "email") as [e|]; cbn [mbind Outcome_bind]; [|done].
  destruct (bind_column e) as [c|]; cbn [mbind Outcome_bind]; [|done].
  rewrite first_by_email_commit.
  destruct (first_by_email db c) as [r|]; [|done]. cbn [fmap option_fmap option_map].
  destruct (py_getitem j "password") as [p|]; cbn [mbind Outcome_bind]; [|done].
  assert (verify_password pwd_verify
            (if bool_decide (id r = id u) then with_name v r else r) p
          = verify_password pwd_verify r p) as ->
    by by destruct (bool_decide (id r = id u)).
  by destruct (verify_password pwd_verify r p) as [[]|].
Qed.

End ProfileFacts.

(** X8. A profile update that has returned, sent again to the table it left,
    returns the same table and the same response: committing the same name
    twice is committing it once. *)
Theorem profile_update_idempotent
    (decode : string -> Outcome PyDict)
    (bind_column : JValue -> Outcome (option string))
    (db db' : Store) (req : Request) (resp : Response) :
  profile_update decode bind_column db req = Return (db', resp) ->
  profile_update decode bind_column db' req = Return (db', resp).
Proof.
  unfold profile_update.
  destruct (validate_token decode (header_token req)) as [d|];
    cbn [mbind Outcome_bind]; [|done].
  destruct (get_json req) as [j|]; cbn [mbind Outcome_bind]; [|done].
  destruct (data_truthy d && data_has "user_id" d).
  2:{ intros [-> H]%pair_fmap_Return. by rewrite H. }
  destruct (data_getitem d "user_id") as [uid|]; cbn [mbind Outcome_bind]; [|done].
  destruct (first_by_user_id db uid) as [user|] eqn:Hu.
  2:{ intros [-> H]%pair_fmap_Return. by rewrite Hu, H. }
  destruct (py_in "name" j) as [[]|]; cbn [mbind Outcome_bind]; [| |done].
  2:{ intros [= <- <-]. by rewrite Hu. }
  destruct (py_getitem j "name") as [v|]; cbn [mbind Outcome_bind]; [|done].
  destruct (bind_column v) as [c|]; cbn [mbind Outcome_bind]; [|done].
  intros [= <- <-]. rewrite (first_by_user_id_commit_name _ _ _ _ Hu).
  by rewrite commit_name_twice.
Qed.

Lemma profile_update_idempotent_witness :
  let req := Demo.request "http://localhost:5003/profile"
               (Some (Demo.encode (json Demo.nick)))
               (JObj {[ "name" := JStr "Nick G." ]}) in
  Demo.profile_update (commit_name Demo.db Demo.nick (Some "Nick G.")) req =
    Return (commit_name Demo.db Demo.nick (Some "Nick G."),
            jsonify (json (with_name (Some "Nick G.") Demo.nick))).
Proof.
  intros req.
  apply (profile_update_idempotent Demo.decode Demo.bind_column Demo.db
           (commit_name Demo.db Demo.nick (Some "Nick G.")) req
           (jsonify (json (with_name (Some "Nick G.") Demo.nick)))).
  by vm_compute.
Defined.

(** X9. A profile update never changes who can log in: on the table it
    leaves, every login request gets the status it got before (or raises
    what it raised before). *)
Theorem profile_update_keeps_logins
    (pwd_verify : JValue -> string -> Outcome bool)
    (encode : PyDict -> string) (decode : string -> Outcome PyDict)
    (bind_column : JValue -> Outcome (option string))
    (db db' : Store) (req : Request) (resp : Response) :
  profile_update decode bind_column db req = Return (db', resp) ->
  forall req2 : Request,
    status_code <$> login pwd_verify encode bind_column db' req2 =
    status_code <$> login pwd_verify encode bind_column db req2.
Proof.
  intros [->|(user & c & _ & ->)]%profile_update_store req2; [done|].
  apply login_commit_name.
Qed.

Lemma profile_update_keeps_logins_witness :
  status_code <$>
    Demo.login (commit_name Demo.db Demo.nick (Some "Nick G."))
      (Demo.request "http://localhost:5003/login" None
         (Demo.credentials "nick.gravgaard@example.com" "password"))
  = Return 200%Z.
Proof.
  rewrite (profile_update_keeps_logins Demo.pwd_verify Demo.encode Demo.decode
             Demo.bind_column Demo.db
             (commit_name Demo.db Demo.nick (Some "Nick G."))
             (Demo.request "http://localhost:5003/profile"
                (Some (Demo.encode (json Demo.nick)))
                (JObj {[ "name" := JStr "Nick G." ]}))
             (jsonify (json (with_name (Some "Nick G.") Demo.nick))));
    by vm_compute.
Defined.

(** X10. A profile update for one user leaves the profile of every user
    with another primary key as it was: a token that resolved to such a user
    before the update resolves to the same row after it, and the profile
    read answers that row's projection. *)
Theorem profile_update_leaves_others
    (decode : string -> Outcome PyDict)
    (bind_column : JValue -> Outcome (option string))
    (db db' : Store) (req : Request) (resp : Response) (user : User) :
  resolves decode db req user ->
  profile_update decode bind_column db req = Return (db', resp) ->
  forall (req2 : Request) (u2 : User),
    resolves decode db req2 u2 -> id u2 ≠ id user ->
    resolves decode db' req2 u2 /\
    profile decode db' req2 = Return (jsonify (json u2)) /\
    profile decode db req2 = Return (jsonify (json u2)).
Proof.
  intros Hres Hupd req2 u2 (t & c & uid & Ht & Hne & Hd & Hu & Hf) Hid.
  assert (first_by_user_id db' uid = Some u2) as Hf'.
  { apply profile_update_store in Hupd as [->|(user' & v & Hres' & ->)]; [done|].
    rewrite (resolves_unique decode db req user' user Hres' Hres).
    rewrite first_by_user_id_commit, Hf. simpl.
    by rewrite bool_decide_eq_false_2. }
  split; [by exists t, c, uid|]. split.
  - by rewrite (profile_with_claims decode db' req2 t c uid), Hf'.
  - by rewrite (profile_with_claims decode db req2 t c uid), Hf.
Qed.

Lemma profile_update_leaves_others_witness :
  Demo.profile (commit_name Demo.db Demo.nick (Some "Nick G."))
    (Demo.request "http://localhost:5003/profile"
       (Some (Demo.encode {[ "user_id" := Some "102" ]})) JNull)
  = Return (jsonify {[ "user_id" := Some "102"; "name" := Some "Shane Edwards";
                       "email" := Some "shane.edwards@example.com" ]}).
Proof.
  destruct (profile_update_leaves_others Demo.decode Demo.bind_column Demo.db
              (commit_name Demo.db Demo.nick (Some "Nick G."))
              (Demo.request "http://localhost:5003/profile"
                 (Some (Demo.encode (json Demo.nick)))
                 (JObj {[ "name" := JStr "Nick G." ]}))
              (jsonify (json (with_name (Some "Nick G.") Demo.nick)))
              Demo.nick)
    with (req2 := Demo.request "http://localhost:5003/profile"
                    (Some (Demo.encode {[ "user_id" := Some "102" ]})) JNull)
         (u2 := {| id := 2; user_id := Some "102"; name := Some "Shane Edwards";
                   email := Some "shane.edwards@example.com";
                   password_hash := Some (Demo.pwd_encrypt "1" "password") |})
    as (_ & H & _).
  - exists (Demo.encode (json Demo.nick)), (json Demo.nick), (Some "101").
    split; [reflexivity|]. split; [apply DemoFacts.encode_nonempty|].
    split; [apply DemoFacts.demo_decode_encode|]. split; reflexivity.
  - by vm_compute.
  - exists (Demo.encode {[ "user_id" := Some "102" ]}),
      {[ "user_id" := Some "102" ]}, (Some "102").
    split; [reflexivity|]. split; [apply DemoFacts.encode_nonempty|].
    split; [apply DemoFacts.demo_decode_encode|]. split; reflexivity.
  - discriminate.
  - exact H.
Defined.

(** X11. A profile read takes nothing from the token but its user_id: two
    requests with one URL and one body whose tokens are valid and carry the
    same user_id are answered alike, whatever name and email their claims
    carry. *)
Theorem profile_reads_only_user_id
    (decode : string -> Outcome PyDict) (db : Store) (r1 r2 : Request)
    (t1 t2 : string) (c1 c2 : PyDict) (uid : option string) :
  url r1 = url r2 -> data r1 = data r2 ->
  header_token r1 = Some t1 -> t1 ≠ "" -> decode t1 = Return c1 ->
  header_token r2 = Some t2 -> t2 ≠ "" -> decode t2 = Return c2 ->
  c1 !! "user_id" = Some uid -> c2 !! "user_id" = Some uid ->
  profile decode db r1 = profile decode db r2.
Proof.
  intros Hurl Hdata H1 Hn1 Hd1 H2 Hn2 Hd2 Hu1 Hu2.
  rewrite (profile_with_claims decode db r1 t1 c1 uid) by done.
  rewrite (profile_with_claims decode db r2 t2 c2 uid) by done.
  destruct (first_by_user_id db uid); [done|].
  by apply error_responses_same_request.
Qed.

Lemma profile_reads_only_user_id_witness :
  Demo.profile Demo.db
    (Demo.request "http://localhost:5003/profile"
       (Some (Demo.encode {[ "user_id" := Some "101"; "name" := Some "Mallory" ]}))
       JNull)
  = Demo.profile Demo.db
      (Demo.request "http://localhost:5003/profile"
         (Some (Demo.encode (json Demo.nick))) JNull).
Proof.
  apply (profile_reads_only_user_id Demo.decode Demo.db _ _
           (Demo.encode {[ "user_id" := Some "101"; "name" := Some "Mallory" ]})
           (Demo.encode (json Demo.nick))
           {[ "user_id" := Some "101"; "name" := Some "Mallory" ]}
           (json Demo.nick) (Some "101")).
  - reflexivity.
  - reflexivity.
  - reflexivity.
  - apply DemoFacts.encode_nonempty.
  - apply DemoFacts.demo_decode_encode.
  - reflexivity.
  - apply DemoFacts.encode_nonempty.
  - apply DemoFacts.demo_decode_encode.
  - reflexivity.
  - reflexivity.
Defined.

(** X12. [validate_token] handles [JWSError] and nothing else: an exception
    of another class that [decode] raises on a non-empty token leaves
    [validate_token], and with it both profile views. *)
Theorem decode_errors_escape_views
    (decode : string -> Outcome PyDict)
    (bind_column : JValue -> Outcome (option string))
    (db : Store) (req : Request) (t : string) (e : Exn) :
  header_token req = Some t -> t ≠ "" ->
  decode t = Raise e -> e ≠ JWSError ->
  validate_token decode (header_token req) = Raise e /\
  profile decode db req = Raise e /\
  profile_update decode bind_column db req = Raise e.
Proof.
  intros Ht Hne Hd He.
  assert (validate_token decode (header_token req) = Raise e) as Hv
    by (rewrite Ht; by apply validate_token_propagates).
  split; [done|]. unfold profile, profile_update. by rewrite Hv.
Qed.

Lemma decode_errors_escape_views_witness :
  profile (fun _ => Raise (LibraryError "JWTError")) Demo.db
    (Demo.request "http://localhost:5003/profile" (Some "x") JNull)
  = Raise (LibraryError "JWTError").
Proof.
  apply (decode_errors_escape_views (fun _ => Raise (LibraryError "JWTError"))
           Demo.bind_column Demo.db
           (Demo.request "http://localhost:5003/profile" (Some "x") JNull)
           "x" (LibraryError "JWTError")); done.
Defined.

(** X13. The POST view reads the body before it looks at what the token
    gave: when the token is missing or invalid and [get_json] raises, the
    exception of [get_json] leaves the view, where the GET view ends in
    [unauthorized] with the message about the token header. *)
Theorem profile_update_parses_body_first
    (decode : string -> Outcome PyDict)
    (bind_column : JValue -> Outcome (option string))
    (db : Store) (req : Request) (e : Exn) :
  missing_or_invalid_token decode req -> get_json req = Raise e ->
  profile_update decode bind_column db req = Raise e /\
  profile decode db req =
    unauthorized req "Please provide a token header that includes a user_id.".
Proof.
  intros Hmiss Hj.
  assert (exists d, validate_token decode (header_token req) = Return d /\
                    data_truthy d && data_has "user_id" d = false)
    as (d & Hv & Hd).
  { destruct Hmiss as [H|[H|[(t & H & Hd)|(t & c & H & Hd & Hu)]]]; rewrite H.
    - by exists DNone.
    - by exists DNone.
    - destruct (validate_token_invalid decode t Hd) as [E|E]; rewrite E; eauto.
    - destruct (validate_token_decoded decode t c Hd) as [E|E]; rewrite E;
        eauto using claims_without. }
  split; [|by apply (profile_without decode db req d)].
  unfold profile_update. by rewrite Hv, Hj.
Qed.

Lemma profile_update_parses_body_first_witness :
  Demo.profile_update Demo.db
    {| url := "http://localhost:5003/profile"; header_token := None;
       data := "{"; get_json := Raise BadRequest |} = Raise BadRequest.
Proof.
  apply (profile_update_parses_body_first Demo.decode Demo.bind_column Demo.db
           {| url := "http://localhost:5003/profile"; header_token := None;
              data := "{"; get_json := Raise BadRequest |} BadRequest).
  - by left.
  - reflexivity.
Defined.

(** ** Passwords and exceptions *)

(** X14. [set_password] touches nothing but the password_hash: the other
    columns and the projection stay. Called with [None] it leaves the user
    without a hash, so that no password verifies, whatever hash was there;
    called with a password it stores what passlib's [encrypt] gave for the
    salt drawn; and of two calls only the last counts. *)
Theorem set_password_replaces_hash
    (pwd_encrypt : string -> string -> string)
    (pwd_verify : JValue -> string -> Outcome bool)
    (salt salt' : string) (u : User) (p p' : option string) :
  id (set_password pwd_encrypt salt u p) = id u /\
  user_id (set_password pwd_encrypt salt u p) = user_id u /\
  name (set_password pwd_encrypt salt u p) = name u /\
  email (set_password pwd_encrypt salt u p) = email u /\
  json (set_password pwd_encrypt salt u p) = json u /\
  password_hash (set_password pwd_encrypt salt u p) = pwd_encrypt salt <$> p /\
  (forall pw : JValue,
     verify_password pwd_verify (set_password pwd_encrypt salt u None) pw
       = Return false) /\
  set_password pwd_encrypt salt' (set_password pwd_encrypt salt u p) p'
    = set_password pwd_encrypt salt' u p'.
Proof.
  by destruct p as [p|], p' as [p'|].
Qed.


